(** * BETTER API client: request dispatcher and analysis poller

    A shallow embedding of [api_client.py] (the request helper
    [_make_request], the endpoint wrappers and
    [poll_for_building_analysis_completion]) and of the per-building part of
    [main_explorer.py], with the properties of the dispatcher and of the
    polling state machine proved about it.

    Python values are the JSON-shaped values the client handles; the HTTP
    transport, the clock and the terminal are an explicit world: a scripted
    server and a trace of the requests sent, the sleeps taken and the lines
    printed. *)

From Stdlib Require Import String Ascii List ZArith Lia Bool DecimalString.
Import ListNotations.
Local Open Scope string_scope.
Local Open Scope Z_scope.
Set Warnings "-register-all".

(** ** Strings *)

Module Str.

(** [str.upper()] on text of ASCII characters, where Python's upper-casing
    changes the letters a to z and nothing else.  A string stands for
    Python text only as far as its characters are ASCII ([is_ascii]): what
    [str.upper()] does to other characters (it maps a few of them to ASCII
    letters) is not modelled, and [upper] leaves the bytes above 127 as they
    are. *)
Definition upper_char (c : ascii) : ascii :=
  let n := nat_of_ascii c in
  if (Nat.leb 97 n && Nat.leb n 122)%bool then ascii_of_nat (n - 32) else c.

Fixpoint upper (s : string) : string :=
  match s with
  | EmptyString => EmptyString
  | String c s' => String (upper_char c) (upper s')
  end.

(** The text has ASCII characters only. *)
Fixpoint is_ascii (s : string) : bool :=
  match s with
  | EmptyString => true
  | String c s' => Nat.ltb (nat_of_ascii c) 128 && is_ascii s'
  end.

(** [s.lstrip(c)] for a single character [c]. *)
Fixpoint lstrip (c : ascii) (s : string) : string :=
  match s with
  | EmptyString => EmptyString
  | String a s' => if Ascii.eqb a c then lstrip c s' else s
  end.

(** [s.rstrip(c)] for a single character [c]. *)
Fixpoint rstrip (c : ascii) (s : string) : string :=
  match s with
  | EmptyString => EmptyString
  | String a s' =>
      match rstrip c s' with
      | EmptyString => if Ascii.eqb a c then EmptyString else String a EmptyString
      | r => String a r
      end
  end.

Fixpoint starts_with (p s : string) : bool :=
  match p, s with
  | EmptyString, _ => true
  | String a p', String b s' => Ascii.eqb a b && starts_with p' s'
  | String _ _, EmptyString => false
  end.

(** [p in s] on two strings: [p] occurs in [s] as a substring. *)
Fixpoint occurs_in (p s : string) : bool :=
  starts_with p s ||
  match s with
  | EmptyString => false
  | String _ s' => occurs_in p s'
  end.

(** [sep.join(parts)]. *)
Fixpoint join (sep : string) (parts : list string) : string :=
  match parts with
  | [] => ""
  | [p] => p
  | p :: rest => p ++ sep ++ join sep rest
  end.

Fixpoint chars (s : string) : list string :=
  match s with
  | EmptyString => []
  | String a s' => String a EmptyString :: chars s'
  end.

End Str.

(** ** Python values and exceptions *)

(** The values that [response.json()] produces and that the client passes
    around.  A dict is an association list in insertion order with distinct
    keys; a float is given by the decimal [m * 10^e] it stands for. *)
Inductive pyval : Type :=
| PNone
| PBool (b : bool)
| PInt (z : Z)
| PFloat (m e : Z)
| PStr (s : string)
| PList (l : list pyval)
| PDict (d : list (string * pyval)).

(** The exception classes that can reach the client's code.
    [RequestsJSONDecodeError] is [requests.exceptions.JSONDecodeError], which
    [response.json()] raises from requests 2.27 on: it derives from
    [InvalidJSONError], a [RequestException], and from [json.JSONDecodeError].
    Older versions let the decoder's own [json.JSONDecodeError] through. *)
Inductive exn_class : Type :=
| HTTPError
| RequestException
| RequestsJSONDecodeError
| JSONDecodeError
| AttributeError
| TypeError
| KeyError
| ValueError
| UnboundLocalError
| OverflowError
| UnicodeEncodeError.

Record exn : Type := mkExn { exn_class_of : exn_class; exn_str : string }.

(** [isinstance(e, requests.exceptions.HTTPError)] *)
Definition is_HTTPError (e : exn) : bool :=
  match exn_class_of e with HTTPError => true | _ => false end.

(** [isinstance(e, requests.exceptions.RequestException)] *)
Definition is_RequestException (e : exn) : bool :=
  match exn_class_of e with
  | HTTPError | RequestException | RequestsJSONDecodeError => true
  | _ => false
  end.

(** [isinstance(e, json.JSONDecodeError)] *)
Definition is_JSONDecodeError (e : exn) : bool :=
  match exn_class_of e with
  | RequestsJSONDecodeError | JSONDecodeError => true
  | _ => false
  end.

Inductive result (A : Type) : Type :=
| Ok (a : A)
| Raise (e : exn).
Arguments Ok {A} a.
Arguments Raise {A} e.

Module Py.

(** [bool(v)] *)
Definition truthy (v : pyval) : bool :=
  match v with
  | PNone => false
  | PBool b => b
  | PInt z => negb (z =? 0)
  | PFloat m _ => negb (m =? 0)
  | PStr s => negb (String.eqb s "")
  | PList l => match l with [] => false | _ => true end
  | PDict d => match d with [] => false | _ => true end
  end.

(** [v == s] for a string literal [s]. *)
Definition eq_str (v : pyval) (s : string) : bool :=
  match v with
  | PStr t => String.eqb t s
  | _ => false
  end.

Fixpoint lookup (key : string) (d : list (string * pyval)) : option pyval :=
  match d with
  | [] => None
  | (k, v) :: d' => if String.eqb k key then Some v else lookup key d'
  end.

Definition type_error (what : string) : exn := mkExn TypeError what.
Definition attribute_error (what : string) : exn := mkExn AttributeError what.

(** [key in v] for a string [key]. *)
Definition contains (key : string) (v : pyval) : result bool :=
  match v with
  | PDict d => Ok (match lookup key d with Some _ => true | None => false end)
  | PList l => Ok (existsb (fun x => eq_str x key) l)
  | PStr s => Ok (Str.occurs_in key s)
  | _ => Raise (type_error "argument is not iterable")
  end.

(** [v.get(key, default)] *)
Definition get (v : pyval) (key : string) (default : pyval) : result pyval :=
  match v with
  | PDict d => Ok (match lookup key d with Some x => x | None => default end)
  | _ => Raise (attribute_error "object has no attribute 'get'")
  end.

(** [v[key]] for a string [key]. *)
Definition getitem (v : pyval) (key : string) : result pyval :=
  match v with
  | PDict d =>
      match lookup key d with
      | Some x => Ok x
      | None => Raise (mkExn KeyError key)
      end
  | PList _ => Raise (type_error "list indices must be integers or slices, not str")
  | PStr _ => Raise (type_error "string indices must be integers, not 'str'")
  | _ => Raise (type_error "object is not subscriptable")
  end.

Fixpoint all_strings (l : list pyval) : option (list string) :=
  match l with
  | [] => Some []
  | PStr s :: l' =>
      match all_strings l' with
      | Some r => Some (s :: r)
      | None => None
      end
  | _ :: _ => None
  end.

(** [sep.join(v)] *)
Definition join (sep : string) (v : pyval) : result string :=
  match v with
  | PList l =>
      match all_strings l with
      | Some parts => Ok (Str.join sep parts)
      | None => Raise (type_error "sequence item: expected str instance")
      end
  | PStr s => Ok (Str.join sep (Str.chars s))
  | PDict d => Ok (Str.join sep (map fst d))
  | _ => Raise (type_error "can only join an iterable")
  end.

End Py.

(** ** The world: transport, clock and terminal *)

Inductive verb : Type := GET | POST | PATCH | DELETE.

(** One call of [requests.get], [requests.post], [requests.patch] or
    [requests.delete].  [req_json] is the [json=] argument, which only the
    POST and PATCH calls pass. *)
Record Request : Type := mkRequest {
  req_verb : verb;
  req_url : string;
  req_headers : list (string * string);
  req_json : option pyval;
  req_params : pyval
}.

(** What [response.json()] does on a response. *)
Inductive json_outcome : Type :=
| JsonValue (v : pyval)
| JsonRaises (e : exn).

(** A [requests.Response], by the members the client reads.
    [http_error_str] is the text of the [HTTPError] that
    [raise_for_status] builds for it. *)
Record Response : Type := mkResponse {
  status_code : Z;
  http_error_str : string;
  content : string;
  text : string;
  json : json_outcome
}.

(** What a call of [requests.get] and the like does.  The transport fails
    below HTTP (connection refused, timeout, DNS, TLS, bad URL: a
    [RequestException] that is no [HTTPError]), with the text of the
    exception; or the call raises some other exception while it prepares the
    request (a [TypeError] for query parameters that are no pairs, a
    [UnicodeEncodeError] for a header that is not Latin-1); or a response is
    delivered. *)
Inductive NetReply : Type :=
| ConnectionFailed (msg : string)
| CallRaised (e : exn)
| Responded (response : Response).

(** A printed line: the text of the f-string with [{}] for each
    interpolated value, and the values in order. *)
Record Line : Type := mkLine { line_text : string; line_args : list pyval }.

Inductive Event : Type :=
| EvRequest (r : Request)
| EvSleep (seconds : Z)
| EvPrint (l : Line).

(** The trace of a run, oldest event first. *)
Definition Trace : Type := list Event.

Definition is_request (e : Event) : bool :=
  match e with EvRequest _ => true | _ => false end.

Definition is_sleep (e : Event) : bool :=
  match e with EvSleep _ => true | _ => false end.

Definition requests_sent (t : Trace) : nat := length (filter is_request t).
Definition sleeps_taken (t : Trace) : nat := length (filter is_sleep t).

(** [response.raise_for_status()]: an [HTTPError] for 4xx and 5xx. *)
Definition raise_for_status (r : Response) : result unit :=
  if (400 <=? status_code r) && (status_code r <? 600)
  then Raise (mkExn HTTPError (http_error_str r))
  else Ok tt.

(** ** Computations: a trace threaded through, and exceptions *)

Definition M (A : Type) : Type := Trace -> result A * Trace.

Definition ret {A} (a : A) : M A := fun t => (Ok a, t).

Definition bind {A B} (c : M A) (k : A -> M B) : M B :=
  fun t =>
    match c t with
    | (Ok a, t') => k a t'
    | (Raise e, t') => (Raise e, t')
    end.

Definition lift {A} (r : result A) : M A := fun t => (r, t).

Declare Scope py_scope.
Delimit Scope py_scope with py.
Notation "x <- c ;; k" := (bind c (fun x => k))
  (at level 61, c at next level, right associativity) : py_scope.
Notation "c ;; k" := (bind c (fun _ => k))
  (at level 61, right associativity) : py_scope.
Local Open Scope py_scope.

Definition emit (e : Event) : M unit := fun t => (Ok tt, (t ++ [e])%list).

(** [print(f"...")] *)
Definition print (text : string) (args : list pyval) : M unit :=
  emit (EvPrint (mkLine text args)).

(** The whole seconds that [time.sleep] can turn into the nanoseconds of
    its signed 64-bit clock. *)
Definition fits_clock (seconds : Z) : bool :=
  (-9223372036854775808 <=? seconds * 1000000000)
  && (seconds * 1000000000 <=? 9223372036854775807).

(** [time.sleep(seconds)] for whole seconds: the argument is converted to
    the clock first, which raises [OverflowError] when it does not fit, and
    then refused with [ValueError] when it is negative. *)
Definition sleep (seconds : Z) : M unit :=
  if negb (fits_clock seconds)
  then lift (Raise (mkExn OverflowError "timestamp too large to convert to C _PyTime_t"))
  else if seconds <? 0
  then lift (Raise (mkExn ValueError "sleep length must be non-negative"))
  else emit (EvSleep seconds).

(** ** [api_client.py] *)

Section Client.

(** [str(v)], the text an f-string puts for a value: Python's built-in. *)
Variable str_of : pyval -> string.

(** The remote service: its reply to the [n]-th request of the run,
    counted from 0. *)
Variable server : nat -> Request -> NetReply.

(** The call into [requests]: the request is sent and the reply comes
    back. *)
Definition send (r : Request) : M NetReply :=
  fun t => (Ok (server (requests_sent t) r), (t ++ [EvRequest r])%list).

(** The URL of line 18:
    [f"{base_url.rstrip('/')}/{endpoint.lstrip('/')}"]. *)
Definition request_url (base_url endpoint : string) : string :=
  Str.rstrip "/" base_url ++ "/" ++ Str.lstrip "/" endpoint.

Definition request_headers (api_key : string) : list (string * string) :=
  [("Authorization", "Token " ++ api_key);
   ("Content-Type", "application/json");
   ("Accept", "application/json")].

(** The [try] body once the response is there: [raise_for_status], then
    the decoded body, or [None] when there is no content. *)
Definition read_response (response : Response) : result pyval :=
  match raise_for_status response with
  | Raise e => Raise e
  | Ok _ =>
      if negb (String.eqb (content response) "")
      then match json response with
           | JsonValue v => Ok v
           | JsonRaises e => Raise e
           end
      else Ok PNone
  end.

(** The three [except] clauses, tried in the order they are written.
    [response] is [None] as long as the local is not bound. *)
Definition except_clauses (response : option Response) (e : exn) : result pyval :=
  if is_HTTPError e then
    match response with
    | None => Raise (mkExn UnboundLocalError "response")
    | Some r =>
        match json r with
        | JsonValue v =>
            Ok (PDict [("error", PStr "HTTPError");
                       ("status_code", PInt (status_code r));
                       ("message", PStr (exn_str e));
                       ("details", v)])
        | JsonRaises je =>
            if is_JSONDecodeError je
            then Ok (PDict [("error", PStr "HTTPError");
                            ("status_code", PInt (status_code r));
                            ("message", PStr (exn_str e));
                            ("details", PStr (text r))])
            else Raise je
        end
    end
  else if is_RequestException e then
    Ok (PDict [("error", PStr "RequestException");
               ("message", PStr (exn_str e))])
  else if is_JSONDecodeError e then
    Ok (PDict [("error", PStr "JSONDecodeError");
               ("message", PStr (exn_str e));
               ("raw_response",
                PStr (match response with Some r => text r | None => "N/A" end))])
  else Raise e.

(** What the [try] statement makes of the transport's reply: the rest of
    the body, with the handlers around it. *)
Definition outcome (reply : NetReply) : result pyval :=
  match reply with
  | ConnectionFailed msg => except_clauses None (mkExn RequestException msg)
  | CallRaised e => except_clauses None e
  | Responded response =>
      match read_response response with
      | Ok v => Ok v
      | Raise e => except_clauses (Some response) e
      end
  end.

(** One supported branch of the [try]: the call, and what becomes of its
    reply. *)
Definition perform (r : Request) : M pyval :=
  reply <- send r ;;
  lift (outcome reply).

Definition missing_credentials : pyval :=
  PDict [("error", PStr "API_KEY and BASE_URL must be provided.")].

Definition unsupported_method (method : string) : pyval :=
  PDict [("error", PStr ("Unsupported HTTP method: " ++ method))].

(** [not s] for an argument that is a string or [None]. *)
Definition absent (s : option string) : bool :=
  match s with
  | None => true
  | Some s => String.eqb s ""
  end.

(** The text of an argument that is not [None]. *)
Definition the (s : option string) : string :=
  match s with
  | Some s => s
  | None => ""
  end.

Definition _make_request (method endpoint : string) (data params : pyval)
    (api_key base_url : option string) : M pyval :=
  if absent api_key || absent base_url then ret missing_credentials
  else
    let url := request_url (the base_url) endpoint in
    let headers := request_headers (the api_key) in
    if String.eqb (Str.upper method) "GET" then
      perform (mkRequest GET url headers None params)
    else if String.eqb (Str.upper method) "POST" then
      perform (mkRequest POST url headers (Some data) params)
    else if String.eqb (Str.upper method) "PATCH" then
      perform (mkRequest PATCH url headers (Some data) params)
    else if String.eqb (Str.upper method) "DELETE" then
      perform (mkRequest DELETE url headers None params)
    else ret (unsupported_method method).

Definition create_portfolio (portfolio_name : pyval) (api_key base_url : option string)
  : M pyval :=
  _make_request "POST" "/portfolios/" (PDict [("name", portfolio_name)]) PNone
    api_key base_url.

Definition create_building (building_payload : pyval) (api_key base_url : option string)
  : M pyval :=
  _make_request "POST" "/buildings/" building_payload PNone api_key base_url.

Definition list_utility_bills (building_id : pyval) (api_key base_url : option string)
  : M pyval :=
  _make_request "GET" ("/buildings/" ++ str_of building_id ++ "/utility_bills/")
    PNone PNone api_key base_url.

Definition get_utility_bill_details (building_id bill_id : pyval)
    (api_key base_url : option string) : M pyval :=
  _make_request "GET"
    ("/buildings/" ++ str_of building_id ++ "/utility_bills/" ++ str_of bill_id ++ "/")
    PNone PNone api_key base_url.

Definition add_new_bills_to_building (building_id new_bills_payload : pyval)
    (api_key base_url : option string) : M pyval :=
  _make_request "POST" ("/buildings/" ++ str_of building_id ++ "/utility_bills/")
    new_bills_payload PNone api_key base_url.

Definition edit_utility_bill (building_id bill_id bill_update_payload : pyval)
    (api_key base_url : option string) : M pyval :=
  _make_request "PATCH"
    ("/buildings/" ++ str_of building_id ++ "/utility_bills/" ++ str_of bill_id ++ "/")
    bill_update_payload PNone api_key base_url.

Definition delete_utility_bill (building_id bill_id : pyval)
    (api_key base_url : option string) : M pyval :=
  _make_request "DELETE"
    ("/buildings/" ++ str_of building_id ++ "/utility_bills/" ++ str_of bill_id ++ "/")
    PNone PNone api_key base_url.

Definition run_building_analysis (building_id savings_target min_r_squared : pyval)
    (api_key base_url : option string) : M pyval :=
  let endpoint := "/buildings/" ++ str_of building_id ++ "/analytics/" in
  let payload := PDict [("savings_target", savings_target);
                        ("min_model_r_squared", min_r_squared);
                        ("benchmark_data_type", PStr "DEFAULT")] in
  _make_request "POST" endpoint payload PNone api_key base_url.

Definition analysis_endpoint (building_id building_analytics_id : pyval) : string :=
  "/buildings/" ++ str_of building_id ++ "/analytics/"
    ++ str_of building_analytics_id ++ "/".

Definition get_building_analysis_details (building_id building_analytics_id : pyval)
    (api_key base_url : option string) (html_format units_ip : bool) : M pyval :=
  let endpoint := analysis_endpoint building_id building_analytics_id in
  let params :=
    PDict (if html_format
           then ("format", PStr "html") :: (if units_ip then [("units", PStr "IP")] else [])
           else []) in
  (if html_format
   then print "Note: HTML format requested for {}. Raw response handling might be needed if not JSON."
              [PStr endpoint]
   else ret tt) ;;
  _make_request "GET" endpoint PNone params api_key base_url.

(** How the [for] loop of the poller is left: by a [return] inside it, or
    by running out of attempts, with [details] as last bound ([None] while
    it is not in [locals()]). *)
Inductive loop_exit : Type :=
| Returned (details : pyval)
| Exhausted (details : option pyval).

Definition polling_failed : pyval :=
  PDict [("error", PStr "Polling failed to get details.")].

(** The iterations [attempt], [attempt + 1], ... of
    [for attempt in range(max_attempts)], [todo] of them. *)
Fixpoint poll_attempts (todo : nat) (attempt : Z) (last : option pyval)
    (building_id building_analytics_id : pyval) (api_key base_url : option string)
    (poll_interval_seconds max_attempts : Z) : M loop_exit :=
  match todo with
  | O => ret (Exhausted last)
  | S todo' =>
      details <- get_building_analysis_details building_id building_analytics_id
                   api_key base_url false false ;;
      usable <- (if Py.truthy details
                 then has_error <- lift (Py.contains "error" details) ;;
                      ret (negb has_error)
                 else ret false) ;;
      if usable : bool then
        generation_result <- lift (Py.get details "generation_result" PNone) ;;
        print "  Attempt {}/{}: Status = {}"
              [PInt (attempt + 1); PInt max_attempts; generation_result] ;;
        if Py.eq_str generation_result "COMPLETE" then
          print "Analysis COMPLETE." [] ;;
          ret (Returned details)
        else if Py.eq_str generation_result "FAILED" then
          message <- lift (Py.get details "generation_message"
                             (PStr "No message provided.")) ;;
          print "Analysis FAILED. Message: {}" [message] ;;
          ret (Returned details)
        else if Py.eq_str generation_result "IN_PROGRESS" then
          sleep poll_interval_seconds ;;
          poll_attempts todo' (attempt + 1) (Some details)
            building_id building_analytics_id api_key base_url
            poll_interval_seconds max_attempts
        else
          print "Unexpected generation_result status: {}. Details: {}"
                [generation_result; details] ;;
          ret (Returned details)
      else
        error_message <- (if Py.truthy details
                          then lift (Py.get details "message" (PStr "Unknown error"))
                          else ret (PStr "Initial call failed, no details.")) ;;
        print "  Attempt {}/{}: Error fetching analysis details: {}"
              [PInt (attempt + 1); PInt max_attempts; error_message] ;;
        sleep poll_interval_seconds ;;
        poll_attempts todo' (attempt + 1) (Some details)
          building_id building_analytics_id api_key base_url
          poll_interval_seconds max_attempts
  end.

Definition poll_for_building_analysis_completion
    (building_id building_analytics_id : pyval) (api_key base_url : option string)
    (poll_interval_seconds max_attempts : Z) : M pyval :=
  print "Polling for completion of analytics ID: {} for building ID: {}..."
        [building_analytics_id; building_id] ;;
  exit <- poll_attempts (Z.to_nat max_attempts) 0 None
            building_id building_analytics_id api_key base_url
            poll_interval_seconds max_attempts ;;
  match exit with
  | Returned details => ret details
  | Exhausted last =>
      print "Polling timed out after {} attempts." [PInt max_attempts] ;;
      ret match last with
          | Some details => details
          | None => polling_failed
          end
  end.

(** ** [main_explorer.py] *)

Definition get_or (v : pyval) (key : string) (default : pyval) : M pyval :=
  lift (Py.get v key default).

(** The two lines of the summary for one fitted model:
    [if key in inverse_model and inverse_model[key]: ...]. *)
Definition print_model_fit (inverse_model : pyval) (key r2_text cvrmse_text : string)
  : M unit :=
  present <- lift (Py.contains key inverse_model) ;;
  fitted <- (if present : bool
             then model <- lift (Py.getitem inverse_model key) ;; ret (Py.truthy model)
             else ret false) ;;
  if fitted : bool then
    model <- lift (Py.getitem inverse_model key) ;;
    r2 <- get_or model "r2" (PStr "N/A") ;;
    print r2_text [r2] ;;
    model <- lift (Py.getitem inverse_model key) ;;
    cvrmse <- get_or model "cvrmse" (PStr "N/A") ;;
    print cvrmse_text [cvrmse]
  else ret tt.

Definition display_analysis_summary (building_id analysis_results : pyval) : M unit :=
  print "\n--- Analysis Summary for Building ID: {} ---" [building_id] ;;
  incomplete <- (if negb (Py.truthy analysis_results) then ret true
                 else has <- lift (Py.contains "generation_result" analysis_results) ;;
                      ret (negb has)) ;;
  if incomplete : bool then
    print "Analysis data is incomplete or unavailable." [] ;;
    failed <- (if Py.truthy analysis_results
               then lift (Py.contains "error" analysis_results)
               else ret false) ;;
    if failed : bool then
      message <- get_or analysis_results "message" (PStr "Unknown error") ;;
      print "  Error: {}" [message]
    else ret tt
  else
    generation_result <- get_or analysis_results "generation_result" PNone ;;
    if negb (Py.eq_str generation_result "COMPLETE") then
      print "Analysis Status: {}" [generation_result] ;;
      message <- get_or analysis_results "generation_message" (PStr "N/A") ;;
      print "  Message: {}" [message]
    else
      v <- get_or analysis_results "generation_date" (PStr "N/A") ;;
      print "  Analysis Generation Date: {}" [v] ;;
      v <- get_or analysis_results "building_location" (PStr "N/A") ;;
      print "  Building Location: {}" [v] ;;
      v <- get_or analysis_results "building_space_type" (PStr "N/A") ;;
      print "  Building Space Type: {}" [v] ;;
      v <- get_or analysis_results "building_gross_floor_area" (PStr "N/A") ;;
      print "  Gross Floor Area: {} sqm" [v] ;;
      v <- get_or analysis_results "savings_target" (PStr "N/A") ;;
      print "  Savings Target Used: {}" [v] ;;
      v <- get_or analysis_results "min_model_r_squared" (PStr "N/A") ;;
      print "  Min R-Squared Used: {}" [v] ;;
      assessment <- get_or analysis_results "assessment" (PDict []) ;;
      assessment_results_data <- get_or assessment "assessment_results" (PDict []) ;;
      inverse_model <- get_or analysis_results "inverse_model" (PDict []) ;;
      print "\n  Key Assessment Results:" [] ;;
      ee_measures <- get_or assessment "ee_measures" PNone ;;
      (if Py.truthy ee_measures then
         joined <- lift (Py.join ", " ee_measures) ;;
         print "    Recommended EE Measures: {}" [PStr joined]
       else print "    Recommended EE Measures: N/A or not provided" []) ;;
      v <- get_or assessment_results_data "energy_savings_combined" (PStr "N/A") ;;
      p <- get_or assessment_results_data "energy_savings_pct_combined" (PStr "N/A") ;;
      print "    Combined Energy Savings: {} kWh ({}%)" [v; p] ;;
      v <- get_or assessment_results_data "cost_savings_combined" (PStr "N/A") ;;
      p <- get_or assessment_results_data "cost_savings_pct_combined" (PStr "N/A") ;;
      print "    Combined Cost Savings: {} Currency ({}%)" [v; p] ;;
      v <- get_or assessment_results_data "ghg_savings_combined" (PStr "N/A") ;;
      p <- get_or assessment_results_data "ghg_reductions_pct_combined" (PStr "N/A") ;;
      print "    Combined GHG Reductions: {} kg ({}%)" [v; p] ;;
      print "\n  Model Fit:" [] ;;
      print_model_fit inverse_model "ELECTRICITY"
        "    Electricity Model R-squared: {}" "    Electricity Model CVRMSE: {}" ;;
      print_model_fit inverse_model "FOSSIL_FUEL"
        "    Fossil Fuel Model R-squared: {}" "    Fossil Fuel Model CVRMSE: {}" ;;
      print "----------------------------------------------------" [].

(** One iteration of [for building_id in building_ids_to_analyze] in
    [main]: the analysis is triggered, then polled with the poller's default
    interval and attempt cap, then summarised.  A [continue] ends the
    iteration. *)
Definition analyze_building (building_id : Z) (savings_target_param : string)
    (min_r_squared_param : pyval) (api_key base_url : option string) : M unit :=
  print "\nProcessing Building ID: {}" [PInt building_id] ;;
  print "  Using Savings Target: '{}', Min R-Squared: {}"
        [PStr savings_target_param; min_r_squared_param] ;;
  print "  Triggering analysis for building {}..." [PInt building_id] ;;
  analysis_trigger_response <-
    run_building_analysis (PInt building_id) (PStr savings_target_param)
      min_r_squared_param api_key base_url ;;
  rejected <- (if negb (Py.truthy analysis_trigger_response) then ret true
               else has <- lift (Py.contains "id" analysis_trigger_response) ;;
                    ret (negb has)) ;;
  if rejected : bool then
    print "  Failed to trigger analysis for building {}. Response: {}"
          [PInt building_id; analysis_trigger_response]
  else
    building_analytics_id <- lift (Py.getitem analysis_trigger_response "id") ;;
    initial <- get_or analysis_trigger_response "generation_result" PNone ;;
    print "  Analysis triggered. Analytics ID: {}, Initial Status: {}"
          [building_analytics_id; initial] ;;
    status <- get_or analysis_trigger_response "generation_result" PNone ;;
    if Py.eq_str status "FAILED" then
      message <- get_or analysis_trigger_response "generation_message" (PStr "N/A") ;;
      print "  Initial analysis trigger failed. Message: {}" [message] ;;
      display_analysis_summary (PInt building_id) analysis_trigger_response
    else
      final_analysis_results <-
        poll_for_building_analysis_completion (PInt building_id) building_analytics_id
          api_key base_url 10 30 ;;
      display_analysis_summary (PInt building_id) final_analysis_results.

(** The loop over the buildings and the closing line of [main]. *)
Fixpoint analyze_buildings (building_ids_to_analyze : list Z)
    (savings_target_param : string) (min_r_squared_param : pyval)
    (api_key base_url : option string) : M unit :=
  match building_ids_to_analyze with
  | [] => print "\n--- BETTER API Explorer Session Ended ---" []
  | building_id :: rest =>
      analyze_building building_id savings_target_param min_r_squared_param
        api_key base_url ;;
      analyze_buildings rest savings_target_param min_r_squared_param api_key base_url
  end.

End Client.

(** * Vocabulary of the properties *)

(** The method names that [_make_request] compares [method.upper()] with. *)
Definition supported_methods : list string := ["GET"; "POST"; "PATCH"; "DELETE"].

(** A credential is missing when the argument is [None] or the empty
    string. *)
Definition missing (s : option string) : Prop := s = None \/ s = Some "".

(** An interval that [time.sleep] accepts: not negative, and within its
    clock (some 292 years). *)
Definition sleepable (interval : Z) : Prop := 0 <= interval <= 9223372036.

(** The request that the poller's status query sends, once the credentials
    are there: [get_building_analysis_details] with its default format. *)
Definition status_query (str_of : pyval -> string)
    (building_id building_analytics_id : pyval) (key base : string) : Request :=
  mkRequest GET (request_url base (analysis_endpoint str_of building_id building_analytics_id))
    (request_headers key) None (PDict []).

(** A failure record of the dispatcher: an object with an ["error"] key. *)
Definition failure (d : pyval) : Prop :=
  exists fields, d = PDict fields /\ Py.lookup "error" fields <> None.

(** A status snapshot: a JSON object with some field and no ["error"]
    key. *)
Definition snapshot (d : pyval) : Prop :=
  exists fields, d = PDict fields /\ fields <> [] /\ Py.lookup "error" fields = None.

(** [details.get("generation_result")] of an object, [None] when the field
    is absent. *)
Definition generation_result_of (d : pyval) : pyval :=
  match d with
  | PDict fields =>
      match Py.lookup "generation_result" fields with
      | Some v => v
      | None => PNone
      end
  | _ => PNone
  end.

(** The snapshot [d] reports the status [status]. *)
Definition reports (status : string) (d : pyval) : Prop :=
  snapshot d /\ generation_result_of d = PStr status.

(** A status the poller knows. *)
Definition recognized (v : pyval) : Prop :=
  v = PStr "COMPLETE" \/ v = PStr "FAILED" \/ v = PStr "IN_PROGRESS".

(** The lines of the poller. *)
Definition polling_line (building_id building_analytics_id : pyval) : Event :=
  EvPrint (mkLine "Polling for completion of analytics ID: {} for building ID: {}..."
             [building_analytics_id; building_id]).

Definition status_line (attempt max_attempts : Z) (generation_result : pyval) : Event :=
  EvPrint (mkLine "  Attempt {}/{}: Status = {}"
             [PInt attempt; PInt max_attempts; generation_result]).

Definition error_line (attempt max_attempts : Z) (message : pyval) : Event :=
  EvPrint (mkLine "  Attempt {}/{}: Error fetching analysis details: {}"
             [PInt attempt; PInt max_attempts; message]).

Definition complete_line : Event := EvPrint (mkLine "Analysis COMPLETE." []).

Definition failed_line (message : pyval) : Event :=
  EvPrint (mkLine "Analysis FAILED. Message: {}" [message]).

(** [details.get(key, default)] of an object. *)
Definition field_or (key : string) (default : pyval) (d : pyval) : pyval :=
  match Py.get d key default with
  | Ok v => v
  | Raise _ => default
  end.

Definition unexpected_line (generation_result details : pyval) : Event :=
  EvPrint (mkLine "Unexpected generation_result status: {}. Details: {}"
             [generation_result; details]).

Definition timed_out_line (max_attempts : Z) : Event :=
  EvPrint (mkLine "Polling timed out after {} attempts." [PInt max_attempts]).

(** The events of the rounds [attempt + 1], ..., [attempt + todo] of the
    loop when each of them finds the analysis in progress: the query, the
    status line, the sleep. *)
Fixpoint waiting_rounds (q : Request) (interval max_attempts : Z) (attempt : Z)
    (todo : nat) : Trace :=
  match todo with
  | O => []
  | S todo' =>
      EvRequest q :: status_line (attempt + 1) max_attempts (PStr "IN_PROGRESS")
        :: EvSleep interval
        :: waiting_rounds q interval max_attempts (attempt + 1) todo'
  end.


(** [str] on the values that name buildings and analyses in the examples
    below: integers in decimal, strings as they are. *)
Definition plain_str (v : pyval) : string :=
  match v with
  | PInt z => NilZero.string_of_int (Z.to_int z)
  | PStr s => s
  | PNone => "None"
  | PBool true => "True"
  | PBool false => "False"
  | _ => "<object>"
  end.

(** The lines of one iteration of [main] up to the submission. *)
Definition submission_lines (building_id : Z) (savings_target_param : string)
    (min_r_squared_param : pyval) : Trace :=
  [EvPrint (mkLine "\nProcessing Building ID: {}" [PInt building_id]);
   EvPrint (mkLine "  Using Savings Target: '{}', Min R-Squared: {}"
              [PStr savings_target_param; min_r_squared_param]);
   EvPrint (mkLine "  Triggering analysis for building {}..." [PInt building_id])].

(** The lines of one iteration of [main] after a submission whose response
    reports FAILED: without an ["id"] the response is printed as it is, with
    one it is summarised by [display_analysis_summary]. *)
Definition rejected_lines (building_id : Z) (response : pyval) : Trace :=
  match Py.getitem response "id" with
  | Raise _ =>
      [EvPrint (mkLine "  Failed to trigger analysis for building {}. Response: {}"
                  [PInt building_id; response])]
  | Ok building_analytics_id =>
      let message := field_or "generation_message" (PStr "N/A") response in
      [EvPrint (mkLine "  Analysis triggered. Analytics ID: {}, Initial Status: {}"
                  [building_analytics_id; PStr "FAILED"]);
       EvPrint (mkLine "  Initial analysis trigger failed. Message: {}" [message]);
       EvPrint (mkLine "\n--- Analysis Summary for Building ID: {} ---" [PInt building_id]);
       EvPrint (mkLine "Analysis Status: {}" [PStr "FAILED"]);
       EvPrint (mkLine "  Message: {}" [message])]
  end.

(** ** Data of the examples *)

Definition example_key : string := "s3cr3t".
Definition example_base : string := "https://better.example/api/v1".

(** A server that gives the same reply to every request. *)
Definition always (reply : NetReply) : nat -> Request -> NetReply :=
  fun _ _ => reply.

(** A server that goes through a list of replies, and repeats [rest] after
    them. *)
Definition scripted (replies : list NetReply) (rest : NetReply)
  : nat -> Request -> NetReply :=
  fun n _ => nth n replies rest.

(** A 200 response with a body that decodes to [v]. *)
Definition json_response (body : string) (v : pyval) : Response :=
  mkResponse 200 "" body body (JsonValue v).

Definition in_progress_snapshot : pyval :=
  PDict [("id", PInt 7); ("generation_result", PStr "IN_PROGRESS")].

Definition complete_snapshot : pyval :=
  PDict [("id", PInt 7); ("generation_result", PStr "COMPLETE");
         ("assessment", PDict [("ee_measures", PList [PStr "REDUCE_PLUG_LOADS"])])].

Definition paused_snapshot : pyval :=
  PDict [("id", PInt 7); ("generation_result", PStr "PAUSED")].

Definition failed_snapshot : pyval :=
  PDict [("id", PInt 7); ("generation_result", PStr "FAILED");
         ("generation_message", PStr "Not enough utility bills.")].

Definition in_progress_reply : NetReply :=
  Responded (json_response "{'id': 7, 'generation_result': 'IN_PROGRESS'}"
               in_progress_snapshot).

Definition complete_reply : NetReply :=
  Responded (json_response "{'id': 7, 'generation_result': 'COMPLETE', ...}"
               complete_snapshot).

Definition paused_reply : NetReply :=
  Responded (json_response "{'id': 7, 'generation_result': 'PAUSED'}" paused_snapshot).

Definition failed_reply : NetReply :=
  Responded (json_response "{'id': 7, 'generation_result': 'FAILED', ...}"
               failed_snapshot).



(** A 200 response whose body is the empty object. *)
Definition empty_object_reply : NetReply := Responded (json_response "{}" (PDict [])).

(** A 204 response: no body. *)
Definition no_content_reply : NetReply :=
  Responded (mkResponse 204 "" "" "" (JsonRaises (mkExn JSONDecodeError "Expecting value"))).

(** A 200 response with a page of HTML for a body, as [response.json()]
    of requests 2.27 and later answers it. *)
Definition html_response : Response :=
  mkResponse 200 "" "<html>Bad gateway</html>" "<html>Bad gateway</html>"
    (JsonRaises (mkExn RequestsJSONDecodeError "Expecting value: line 1 column 1 (char 0)")).

Definition connection_refused : NetReply := ConnectionFailed "Connection refused".

(** ** Vocabulary of the further properties *)

(** The record of the [HTTPError] clause. *)
Definition http_error_record (response : Response) (details : pyval) : pyval :=
  PDict [("error", PStr "HTTPError");
         ("status_code", PInt (status_code response));
         ("message", PStr (http_error_str response));
         ("details", details)].

(** The body of a response as [response.json()] gives it, its text when it
    does not decode. *)
Definition body_or_text (response : Response) : pyval :=
  match json response with
  | JsonValue v => v
  | JsonRaises _ => PStr (text response)
  end.

(** [response.json()] fails with a decoding error only. *)
Definition decodes_or_fails (response : Response) : Prop :=
  forall e, json response = JsonRaises e -> is_JSONDecodeError e = true.

(** The call into [requests] fails, if it does, with a [RequestException]
    that is no [HTTPError], as the failures of the transport are. *)
Definition fails_as_transport (reply : NetReply) : Prop :=
  forall e, reply = CallRaised e -> is_RequestException e = true /\ is_HTTPError e = false.

(** The status is one that [raise_for_status] lets through. *)
Definition passes (response : Response) : Prop :=
  ~ (400 <= status_code response < 600).

(** A string of [n] slashes. *)
Fixpoint slashes (n : nat) : string :=
  match n with
  | O => ""
  | S n' => String "/" (slashes n')
  end.

(** A result of a status query after which the poller sleeps and asks
    again: a snapshot in progress, a failure record, or a falsy value. *)
Definition retried (d : pyval) : Prop :=
  reports "IN_PROGRESS" d \/ failure d \/ Py.truthy d = false.

(** A truthy value that is no object. *)
Definition truthy_non_object (d : pyval) : Prop :=
  Py.truthy d = true /\ forall fields, d <> PDict fields.

(** The line of [main] for a submission that gave no analysis. *)
Definition trigger_failed_line (building_id : Z) (response : pyval) : Event :=
  EvPrint (mkLine "  Failed to trigger analysis for building {}. Response: {}"
             [PInt building_id; response]).

(** The closing line of [main]. *)
Definition session_ended_line : Event :=
  EvPrint (mkLine "\n--- BETTER API Explorer Session Ended ---" []).

(** A computation that, however it ends, adds at most [requests] requests
    and [sleeps] sleeps to the trace. *)
Definition costs {A} (c : M A) (requests sleeps : nat) : Prop :=
  forall t result t',
    c t = (result, t') ->
    (requests_sent t' <= requests_sent t + requests)%nat /\
    (sleeps_taken t' <= sleeps_taken t + sleeps)%nat.

(** The lines of [display_analysis_summary] for a value without a status. *)
Definition summary_header (building_id : pyval) : Event :=
  EvPrint (mkLine "\n--- Analysis Summary for Building ID: {} ---" [building_id]).

Definition summary_unavailable : Event :=
  EvPrint (mkLine "Analysis data is incomplete or unavailable." []).

Definition summary_error (message : pyval) : Event :=
  EvPrint (mkLine "  Error: {}" [message]).

(** A 404 response with a JSON body. *)
Definition not_found_response : Response :=
  mkResponse 404 "404 Client Error: Not Found for url: https://better.example/api/v1/buildings/9/"
    "{'detail': 'Not found.'}" "{'detail': 'Not found.'}"
    (JsonValue (PDict [("detail", PStr "Not found.")])).

(** A 200 response whose body is a JSON list. *)
Definition list_reply : NetReply := Responded (json_response "[1]" (PList [PInt 1])).

(** The record that a refused connection leaves. *)
Definition refused_record : pyval :=
  PDict [("error", PStr "RequestException"); ("message", PStr "Connection refused")].

(** * Properties *)

(** ** Running a computation *)

Lemma run_print {A} (text : string) (args : list pyval) (k : M A) (t : Trace) :
  (print text args ;; k) t = k (t ++ [EvPrint (mkLine text args)])%list.
Proof. reflexivity. Qed.

Lemma run_lift {A B} (v : A) (k : A -> M B) (t : Trace) :
  (x <- lift (Ok v) ;; k x) t = k v t.
Proof. reflexivity. Qed.

Lemma run_ret {A B} (v : A) (k : A -> M B) (t : Trace) :
  (x <- ret v ;; k x) t = k v t.
Proof. reflexivity. Qed.

(** ** Traces *)

Lemma requests_sent_app (t u : Trace) :
  requests_sent (t ++ u)%list = (requests_sent t + requests_sent u)%nat.
Proof. unfold requests_sent. now rewrite filter_app, length_app. Qed.

Lemma sleeps_taken_app (t u : Trace) :
  sleeps_taken (t ++ u)%list = (sleeps_taken t + sleeps_taken u)%nat.
Proof. unfold sleeps_taken. now rewrite filter_app, length_app. Qed.

(** ** Stripping slashes *)

Lemma rstrip_snoc (c : ascii) (s : string) :
  Str.rstrip c (s ++ String c "") = Str.rstrip c s.
Proof.
  induction s as [|a s IH]; simpl.
  - now rewrite Ascii.eqb_refl.
  - now rewrite IH.
Qed.

Lemma lstrip_cons (c : ascii) (s : string) :
  Str.lstrip c (String c s) = Str.lstrip c s.
Proof. simpl. now rewrite Ascii.eqb_refl. Qed.

Lemma lstrip_no_leading (c : ascii) (s rest : string) :
  Str.lstrip c s <> String c rest.
Proof.
  induction s as [|a s IH]; simpl.
  - discriminate.
  - destruct (Ascii.eqb a c) eqn:E; [exact IH|].
    intros H. injection H as -> _. now rewrite Ascii.eqb_refl in E.
Qed.

Lemma rstrip_no_trailing (c : ascii) (s rest : string) :
  Str.rstrip c s <> rest ++ String c "".
Proof.
  revert rest. induction s as [|a s IH]; intros rest; simpl.
  - destruct rest; discriminate.
  - destruct (Str.rstrip c s) as [|b r] eqn:R.
    + destruct (Ascii.eqb a c) eqn:E.
      * destruct rest; discriminate.
      * destruct rest as [|x rest]; simpl.
        -- intros H. injection H as ->. now rewrite Ascii.eqb_refl in E.
        -- destruct rest; discriminate.
    + destruct rest as [|x rest]; simpl.
      * discriminate.
      * intros H. injection H as _ H. exact (IH rest H).
Qed.

(** ** The dispatcher *)

Lemma absent_missing (s : option string) : absent s = true <-> missing s.
Proof.
  unfold missing. destruct s as [s|]; simpl.
  - rewrite String.eqb_eq. split.
    + intros ->. now right.
    + intros [H|H]; [discriminate | now injection H].
  - split; [now left | reflexivity].
Qed.

Lemma absent_present (s : string) : s <> "" -> absent (Some s) = false.
Proof. intros H. simpl. now apply String.eqb_neq. Qed.

Lemma missing_either (api_key base_url : option string) :
  missing api_key \/ missing base_url -> absent api_key || absent base_url = true.
Proof.
  intros [H|H]; apply absent_missing in H; rewrite H; [reflexivity | apply orb_true_r].
Qed.

Lemma unsupported_upper (method : string) :
  ~ In (Str.upper method) supported_methods ->
  String.eqb (Str.upper method) "GET" = false /\
  String.eqb (Str.upper method) "POST" = false /\
  String.eqb (Str.upper method) "PATCH" = false /\
  String.eqb (Str.upper method) "DELETE" = false.
Proof.
  intros H. repeat split; apply String.eqb_neq; intros E; apply H; rewrite E;
    simpl; auto.
Qed.

Section Dispatcher.

Variable server : nat -> Request -> NetReply.

(** Without credentials the helper returns at line 16, whatever else it
    was given. *)
Lemma make_request_without_credentials method endpoint data params api_key base_url t :
  missing api_key \/ missing base_url ->
  _make_request server method endpoint data params api_key base_url t
  = (Ok missing_credentials, t).
Proof.
  intros H. unfold _make_request. now rewrite (missing_either _ _ H).
Qed.

(** With credentials, a supported method makes exactly one call, to the
    URL of line 18, and the reply decides the result. *)
Lemma make_request_dispatched method endpoint data params key base t :
  key <> "" -> base <> "" -> In (Str.upper method) supported_methods ->
  exists r,
    req_url r = request_url base endpoint /\
    req_headers r = request_headers key /\
    req_params r = params /\
    _make_request server method endpoint data params (Some key) (Some base) t
    = (outcome (server (requests_sent t) r), (t ++ [EvRequest r])%list).
Proof.
  intros Hk Hb Hm. unfold _make_request.
  rewrite (absent_present _ Hk), (absent_present _ Hb). simpl orb. cbv iota.
  unfold supported_methods in Hm. simpl in Hm.
  destruct Hm as [E|[E|[E|[E|[]]]]]; rewrite <- E; simpl String.eqb; cbv iota;
    eexists; (repeat split; [..| reflexivity]); reflexivity.
Qed.

(** C8. Whenever the API key or the base URL is missing ([None] or
    empty), [_make_request] returns the configuration failure
    [{"error": "API_KEY and BASE_URL must be provided."}] and the trace is
    unchanged: no request has been sent. *)
Theorem missing_credentials_fail_without_call
    method endpoint data params api_key base_url t :
  missing api_key \/ missing base_url ->
  let run := _make_request server method endpoint data params api_key base_url t in
  fst run = Ok (PDict [("error", PStr "API_KEY and BASE_URL must be provided.")]) /\
  snd run = t /\
  requests_sent (snd run) = requests_sent t.
Proof.
  intros H run. subst run.
  rewrite (make_request_without_credentials _ _ _ _ _ _ _ H).
  repeat split.
Qed.

(** C9. When the credentials are missing and the method is one the helper
    does not support, the result is the missing-credentials failure and not
    the unsupported-method one, no request is sent, and the call gives the
    same result and trace for every other method: the method is not looked
    at. *)
Theorem credentials_checked_before_method
    method endpoint data params api_key base_url t :
  missing api_key \/ missing base_url ->
  ~ In (Str.upper method) supported_methods ->
  _make_request server method endpoint data params api_key base_url t
  = (Ok missing_credentials, t) /\
  missing_credentials <> unsupported_method method /\
  forall other_method,
    _make_request server other_method endpoint data params api_key base_url t
    = _make_request server method endpoint data params api_key base_url t.
Proof.
  intros H _. split; [|split].
  - now apply make_request_without_credentials.
  - unfold missing_credentials, unsupported_method. intros E.
    injection E as E. discriminate E.
  - intros other. now rewrite !make_request_without_credentials.
Qed.

(** C7, as amended. With both credentials present, every method of ASCII
    characters whose upper-case form is none of GET, POST, PATCH, DELETE gets
    the failure [{"error": "Unsupported HTTP method: <method>"}], and the
    trace is unchanged: no request has been sent. *)
Theorem unsupported_method_fails_without_call method endpoint data params key base t :
  key <> "" -> base <> "" ->
  Str.is_ascii method = true ->
  ~ In (Str.upper method) supported_methods ->
  _make_request server method endpoint data params (Some key) (Some base) t
  = (Ok (PDict [("error", PStr ("Unsupported HTTP method: " ++ method))]), t).
Proof.
  intros Hk Hb _ Hm. unfold _make_request.
  rewrite (absent_present _ Hk), (absent_present _ Hb). simpl orb. cbv iota.
  destruct (unsupported_upper _ Hm) as (-> & -> & -> & ->). reflexivity.
Qed.

End Dispatcher.

Lemma request_url_slash (base_url endpoint : string) :
  request_url (base_url ++ "/") endpoint = request_url base_url ("/" ++ endpoint).
Proof.
  unfold request_url. rewrite rstrip_snoc.
  change ("/" ++ endpoint) with (String "/" endpoint).
  now rewrite lstrip_cons.
Qed.

Lemma append_nonempty (s u : string) : u <> "" -> s ++ u <> "".
Proof.
  intros H E. destruct s; simpl in E; [contradiction | discriminate].
Qed.

Lemma rstrip_decompose (s : string) :
  exists n, s = Str.rstrip "/" s ++ slashes n.
Proof.
  induction s as [|a s (n & IH)]; [now exists O|]. simpl.
  destruct (Str.rstrip "/" s) as [|b r] eqn:R.
  - simpl in IH. destruct (Ascii.eqb a "/") eqn:E.
    + apply Ascii.eqb_eq in E. subst a. exists (S n). simpl. now rewrite <- IH.
    + exists n. simpl. now rewrite <- IH.
  - exists n. simpl. f_equal. exact IH.
Qed.

Lemma lstrip_decompose (s : string) :
  exists n, s = slashes n ++ Str.lstrip "/" s.
Proof.
  induction s as [|a s (n & IH)]; [now exists O|]. simpl.
  destruct (Ascii.eqb a "/") eqn:E.
  - apply Ascii.eqb_eq in E. subst a. exists (S n). simpl. now rewrite <- IH.
  - now exists O.
Qed.

(** C10, as amended. The base URL is a string without a slash at its end
    followed by slashes, the endpoint is slashes followed by a string without
    a slash at its start, and the URL that [_make_request] requests is the
    first of these strings, one slash, and the second.  So a slash moved from
    the front of the endpoint to the end of the base URL does not change the
    URL; a call that is dispatched sends its request to that URL; and for a
    base URL that is not empty the two calls are the same call. *)
Theorem request_url_ignores_boundary_slashes (base_url endpoint : string) :
  (exists b e n m,
     base_url = b ++ slashes n /\
     endpoint = slashes m ++ e /\
     (forall rest, b <> rest ++ "/") /\
     (forall rest, e <> "/" ++ rest) /\
     request_url base_url endpoint = b ++ "/" ++ e) /\
  request_url (base_url ++ "/") endpoint = request_url base_url ("/" ++ endpoint) /\
  (forall server method data params key t,
      key <> "" -> base_url <> "" -> In (Str.upper method) supported_methods ->
      exists r,
        req_url r = request_url base_url endpoint /\
        _make_request server method endpoint data params (Some key) (Some base_url) t
        = (outcome (server (requests_sent t) r), (t ++ [EvRequest r])%list)) /\
  (forall server method data params api_key t,
      base_url <> "" ->
      _make_request server method endpoint data params api_key (Some (base_url ++ "/")) t
      = _make_request server method ("/" ++ endpoint) data params api_key (Some base_url) t).
Proof.
  split; [|split; [apply request_url_slash | split]].
  - destruct (rstrip_decompose base_url) as (n & Hb).
    destruct (lstrip_decompose endpoint) as (m & He).
    exists (Str.rstrip "/" base_url), (Str.lstrip "/" endpoint), n, m.
    split; [exact Hb|]. split; [exact He|].
    split; [apply rstrip_no_trailing|]. split; [apply lstrip_no_leading | reflexivity].
  - intros server method data params key t Hk Hb Hm.
    destruct (make_request_dispatched server method endpoint data params key base_url t
                Hk Hb Hm) as (r & Hu & _ & _ & Hr).
    now exists r.
  - intros server method data params api_key t Hb.
    unfold _make_request.
    assert (Hs : absent (Some (base_url ++ "/")) = false).
    { apply absent_present, append_nonempty. discriminate. }
    rewrite Hs, (absent_present _ Hb). unfold the.
    now rewrite request_url_slash.
Qed.

(** The claim of C10 as first stated fails for the empty base URL: with a
    slash it is a base URL and the request is sent, without it the
    credentials check stops the call. *)
Lemma empty_base_url_is_stopped :
  _make_request (always connection_refused) "GET" "portfolios/" PNone PNone
    (Some example_key) (Some ("" ++ "/")) []
  = (Ok (PDict [("error", PStr "RequestException"); ("message", PStr "Connection refused")]),
     [EvRequest (mkRequest GET "/portfolios/" (request_headers example_key) None PNone)]) /\
  _make_request (always connection_refused) "GET" ("/" ++ "portfolios/") PNone PNone
    (Some example_key) (Some "") []
  = (Ok (PDict [("error", PStr "API_KEY and BASE_URL must be provided.")]), []).
Proof. split; reflexivity. Qed.

(** The claim of C7 as first stated fails twice over: a lower-case method
    name is dispatched, and without credentials an unknown method gets the
    missing-credentials failure. *)
Lemma lowercase_method_is_dispatched :
  ~ In "get" supported_methods /\
  _make_request (fun _ _ => ConnectionFailed "refused")
    "get" "/portfolios/" PNone PNone (Some "key") (Some "https://better.example/api") []
  = (Ok (PDict [("error", PStr "RequestException"); ("message", PStr "refused")]),
     [EvRequest (mkRequest GET "https://better.example/api/portfolios/"
                   (request_headers "key") None PNone)]) /\
  ~ In "PUT" supported_methods /\
  _make_request (fun _ _ => ConnectionFailed "refused")
    "PUT" "/portfolios/" PNone PNone None (Some "https://better.example/api") []
  = (Ok (PDict [("error", PStr "API_KEY and BASE_URL must be provided.")]), []).
Proof.
  repeat split; try reflexivity;
    intros H; simpl in H; repeat (destruct H as [H|H]; [discriminate H|]); exact H.
Qed.

(** ** The poller *)

Lemma sleep_accepted (interval : Z) (t : Trace) :
  sleepable interval -> sleep interval t = (Ok tt, (t ++ [EvSleep interval])%list).
Proof.
  unfold sleepable, sleep, fits_clock. intros H.
  replace (-9223372036854775808 <=? interval * 1000000000) with true
    by (symmetry; apply Z.leb_le; lia).
  replace (interval * 1000000000 <=? 9223372036854775807) with true
    by (symmetry; apply Z.leb_le; lia).
  replace (interval <? 0) with false by (symmetry; apply Z.ltb_ge; lia).
  reflexivity.
Qed.

Lemma eq_str_other (v : pyval) (s : string) : v <> PStr s -> Py.eq_str v s = false.
Proof.
  intros H. destruct v; try reflexivity. simpl. apply String.eqb_neq.
  intros ->. now apply H.
Qed.


Lemma waiting_rounds_requests q interval max_attempts attempt todo :
  filter is_request (waiting_rounds q interval max_attempts attempt todo)
  = repeat (EvRequest q) todo.
Proof.
  revert attempt. induction todo as [|todo IH]; intros attempt; simpl;
    [reflexivity | now rewrite IH].
Qed.

Lemma waiting_rounds_sleeps q interval max_attempts attempt todo :
  sleeps_taken (waiting_rounds q interval max_attempts attempt todo) = todo.
Proof.
  unfold sleeps_taken. revert attempt.
  induction todo as [|todo IH]; intros attempt; simpl; [reflexivity | now rewrite IH].
Qed.



Lemma repeat_snoc {A} (x : A) (n : nat) : (repeat x n ++ [x])%list = repeat x (S n).
Proof. induction n as [|n IH]; simpl; [reflexivity | now rewrite IH]. Qed.

Section Poller.

Variable str_of : pyval -> string.
Variable server : nat -> Request -> NetReply.

Variables building_id building_analytics_id : pyval.
Variables key base : string.
Variables interval max_attempts : Z.

(** The poller is run with both credentials, so that its queries reach the
    transport, and with an interval that [time.sleep] accepts. *)
Hypothesis key_present : key <> "".
Hypothesis base_present : base <> "".
Hypothesis interval_ok : sleepable interval.

Local Abbreviation q := (status_query str_of building_id building_analytics_id key base).

Local Abbreviation attempts todo attempt last :=
  (poll_attempts str_of server todo attempt last building_id building_analytics_id
     (Some key) (Some base) interval max_attempts).

Local Abbreviation poll :=
  (poll_for_building_analysis_completion str_of server building_id building_analytics_id
     (Some key) (Some base) interval max_attempts).

Local Abbreviation announced t := (t ++ [polling_line building_id building_analytics_id])%list.

Lemma details_fetched (t : Trace) :
  get_building_analysis_details str_of server building_id building_analytics_id
    (Some key) (Some base) false false t
  = (outcome (server (requests_sent t) q), (t ++ [EvRequest q])%list).
Proof.
  unfold get_building_analysis_details, _make_request.
  rewrite (absent_present _ key_present), (absent_present _ base_present).
  reflexivity.
Qed.

Lemma sleep_interval (t : Trace) : sleep interval t = (Ok tt, (t ++ [EvSleep interval])%list).
Proof. now apply sleep_accepted. Qed.

(** One round of the loop on a snapshot: the four branches of lines
    152 to 162. *)
Lemma round_snapshot todo attempt last d t :
  outcome (server (requests_sent t) q) = Ok d ->
  snapshot d ->
  attempts (S todo) attempt last t
  = let gr := generation_result_of d in
    let line := status_line (attempt + 1) max_attempts gr in
    if Py.eq_str gr "COMPLETE" then
      (Ok (Returned d), (t ++ [EvRequest q; line; complete_line])%list)
    else if Py.eq_str gr "FAILED" then
      (Ok (Returned d),
       (t ++ [EvRequest q; line;
              failed_line (field_or "generation_message" (PStr "No message provided.") d)])%list)
    else if Py.eq_str gr "IN_PROGRESS" then
      attempts todo (attempt + 1) (Some d) (t ++ [EvRequest q; line; EvSleep interval])%list
    else (Ok (Returned d), (t ++ [EvRequest q; line; unexpected_line gr d])%list).
Proof.
  intros Hout (fields & -> & Hne & Herr).
  assert (Htr : Py.truthy (PDict fields) = true)
    by (destruct fields; [contradiction | reflexivity]).
  assert (Hc : Py.contains "error" (PDict fields) = Ok false)
    by (simpl; now rewrite Herr).
  simpl poll_attempts. unfold bind at 1.
  rewrite details_fetched, Hout.
  unfold bind at 1. rewrite Htr. unfold bind at 1, lift at 1. rewrite Hc.
  unfold ret at 1. cbn [negb]. cbv iota.
  unfold bind at 1, lift at 1. cbn [Py.get].
  change (match Py.lookup "generation_result" fields with Some x => x | None => PNone end)
    with (generation_result_of (PDict fields)).
  cbv zeta. set (gr := generation_result_of (PDict fields)).
  unfold bind at 1, print at 1, emit at 1.
  rewrite <- app_assoc. cbn [app].
  fold (status_line (attempt + 1) max_attempts gr).
  destruct (Py.eq_str gr "COMPLETE").
  { unfold bind, print, emit, ret. now rewrite <- !app_assoc. }
  destruct (Py.eq_str gr "FAILED").
  { unfold bind, print, emit, ret, lift. now rewrite <- !app_assoc. }
  destruct (Py.eq_str gr "IN_PROGRESS").
  { unfold bind at 1. rewrite sleep_interval. now rewrite <- !app_assoc. }
  unfold bind, print, emit, ret. now rewrite <- !app_assoc.
Qed.

(** One round of the loop on a failure record: lines 164 to 168. *)
Lemma round_failure todo attempt last d t :
  outcome (server (requests_sent t) q) = Ok d ->
  failure d ->
  attempts (S todo) attempt last t
  = attempts todo (attempt + 1) (Some d)
      (t ++ [EvRequest q;
             error_line (attempt + 1) max_attempts
               (field_or "message" (PStr "Unknown error") d);
             EvSleep interval])%list.
Proof.
  intros Hout (fields & -> & Herr).
  assert (Htr : Py.truthy (PDict fields) = true).
  { destruct fields; [now elim Herr | reflexivity]. }
  assert (Hc : Py.contains "error" (PDict fields) = Ok true).
  { simpl. destruct (Py.lookup "error" fields); [reflexivity | now elim Herr]. }
  simpl poll_attempts. unfold bind at 1.
  rewrite details_fetched, Hout.
  unfold bind at 1. rewrite Htr. unfold bind at 1, lift at 1. rewrite Hc.
  unfold ret at 1. cbn [negb]. cbv iota.
  unfold bind at 1, lift at 1. cbn [Py.get].
  unfold bind at 1, print at 1, emit at 1.
  unfold bind at 1. rewrite sleep_interval.
  now rewrite <- !app_assoc.
Qed.

(** [j] rounds in progress, one after the other, lead to the round after
    them with the last snapshot in [details]. *)
Lemma waiting_prefix (j todo : nat) :
  forall (snap : nat -> pyval) attempt last t,
    (forall i, (i < j)%nat ->
       outcome (server (requests_sent t + i) q) = Ok (snap i) /\
       reports "IN_PROGRESS" (snap i)) ->
    attempts (j + todo) attempt last t
    = attempts todo (attempt + Z.of_nat j)
        match j with O => last | S j' => Some (snap j') end
        (t ++ waiting_rounds q interval max_attempts attempt j)%list.
Proof.
  induction j as [|j IH]; intros snap attempt last t H.
  - simpl. now rewrite Z.add_0_r, app_nil_r.
  - destruct (H O (Nat.lt_0_succ j)) as (Hout & Hsnap & Hgr).
    rewrite Nat.add_0_r in Hout.
    change (S j + todo)%nat with (S (j + todo)).
    rewrite (round_snapshot _ _ _ _ _ Hout Hsnap). cbv zeta.
    rewrite Hgr. simpl Py.eq_str. cbv iota.
    rewrite (IH (fun i => snap (S i))).
    + replace (attempt + 1 + Z.of_nat j) with (attempt + Z.of_nat (S j)) by lia.
      rewrite <- app_assoc. simpl app.
      destruct j; reflexivity.
    + intros i Hi. rewrite requests_sent_app.
      match goal with
      | |- context [requests_sent (?e :: ?l)] => change (requests_sent (e :: l)) with 1%nat
      end.
      replace (requests_sent t + 1 + i)%nat with (requests_sent t + S i)%nat by lia.
      apply H. lia.
Qed.


(** The poller around its loop. *)
Lemma poll_unfold t :
  poll_for_building_analysis_completion str_of server building_id building_analytics_id
    (Some key) (Some base) interval max_attempts t
  = match attempts (Z.to_nat max_attempts) 0 None
            (t ++ [polling_line building_id building_analytics_id])%list with
    | (Ok (Returned details), t') => (Ok details, t')
    | (Ok (Exhausted last), t') =>
        (Ok match last with Some details => details | None => polling_failed end,
         (t' ++ [timed_out_line max_attempts])%list)
    | (Raise e, t') => (Raise e, t')
    end.
Proof.
  unfold poll_for_building_analysis_completion.
  unfold bind at 1, print at 1, emit at 1. unfold bind at 1.
  fold (polling_line building_id building_analytics_id).
  destruct (poll_attempts _ _ _ _ _ _ _ _ _ _ _ _) as [[[d|l]|e] t']; reflexivity.
Qed.

(** After [j] rounds in progress the poller stands before round [j + 1],
    with the attempts that are left. *)
Lemma poll_after_waiting (j : nat) (snap : nat -> pyval) (t : Trace) :
  Z.of_nat j <= max_attempts ->
  (forall i, (i < j)%nat ->
     outcome (server (requests_sent t + i) q) = Ok (snap i) /\
     reports "IN_PROGRESS" (snap i)) ->
  attempts (Z.to_nat max_attempts) 0 None (announced t)
  = attempts (Z.to_nat max_attempts - j)%nat (Z.of_nat j)
      match j with O => None | S j' => Some (snap j') end
      (t ++ polling_line building_id building_analytics_id
         :: waiting_rounds q interval max_attempts 0 j)%list.
Proof.
  intros Hj H.
  replace (Z.to_nat max_attempts) with (j + (Z.to_nat max_attempts - j))%nat at 1 by lia.
  rewrite (waiting_prefix j _ snap).
  - now rewrite <- app_assoc.
  - intros i Hi. rewrite requests_sent_app. simpl requests_sent.
    rewrite Nat.add_0_r. now apply H.
Qed.

(** One round of the loop on a falsy result: the [else] branch with its
    fixed message. *)
Lemma round_falsy todo attempt last d t :
  outcome (server (requests_sent t) q) = Ok d ->
  Py.truthy d = false ->
  attempts (S todo) attempt last t
  = attempts todo (attempt + 1) (Some d)
      (t ++ [EvRequest q;
             error_line (attempt + 1) max_attempts (PStr "Initial call failed, no details.");
             EvSleep interval])%list.
Proof.
  intros Hout Htr.
  simpl poll_attempts. unfold bind at 1. rewrite details_fetched, Hout.
  rewrite Htr. rewrite run_ret. cbv iota. rewrite run_ret, run_print.
  unfold bind at 1. rewrite sleep_interval.
  now rewrite <- !app_assoc.
Qed.

(** A round whose result is retried goes on to the next round after one
    request, one line and one sleep. *)
Lemma round_retried todo attempt last d t :
  outcome (server (requests_sent t) q) = Ok d ->
  retried d ->
  exists line,
    attempts (S todo) attempt last t
    = attempts todo (attempt + 1) (Some d)
        (t ++ [EvRequest q; EvPrint line; EvSleep interval])%list.
Proof.
  intros Hout [(Hsnap & Hgr)|[Hfail|Hfalsy]].
  - rewrite (round_snapshot _ _ _ _ _ Hout Hsnap).
    cbv zeta. rewrite Hgr. cbn [Py.eq_str String.eqb Ascii.eqb Bool.eqb].
    eexists. reflexivity.
  - rewrite (round_failure _ _ _ _ _ Hout Hfail). eexists. reflexivity.
  - rewrite (round_falsy _ _ _ _ _ Hout Hfalsy). eexists. reflexivity.
Qed.

(** [j] rounds that are retried lead to the round after them: [j] status
    queries and [j] sleeps later, with the last result in [details]. *)
Lemma retried_prefix (j todo : nat) :
  forall (outs : nat -> pyval) attempt last t,
    (forall i, (i < j)%nat ->
       outcome (server (requests_sent t + i) q) = Ok (outs i) /\ retried (outs i)) ->
    exists t',
      attempts (j + todo) attempt last t
      = attempts todo (attempt + Z.of_nat j)
          match j with O => last | S j' => Some (outs j') end t' /\
      filter is_request t' = (filter is_request t ++ repeat (EvRequest q) j)%list /\
      sleeps_taken t' = (sleeps_taken t + j)%nat /\
      exists lines, t' = (t ++ lines)%list.
Proof.
  induction j as [|j IH]; intros outs attempt last t H.
  - exists t. rewrite Z.add_0_r. cbn [repeat]. rewrite app_nil_r, Nat.add_0_r.
    repeat split. exists []. now rewrite app_nil_r.
  - destruct (H O (Nat.lt_0_succ j)) as (Hout & Hret).
    rewrite Nat.add_0_r in Hout.
    destruct (round_retried (j + todo) attempt last _ _ Hout Hret) as (line & E).
    change (S j + todo)%nat with (S (j + todo)). rewrite E.
    destruct (IH (fun i => outs (S i)) (attempt + 1) (Some (outs O))
                (t ++ [EvRequest q; EvPrint line; EvSleep interval])%list)
      as (t' & E' & Hreq & Hsl & lines & Ht').
    + intros i Hi'. rewrite requests_sent_app.
      change (requests_sent [EvRequest q; EvPrint line; EvSleep interval]) with 1%nat.
      replace (requests_sent t + 1 + i)%nat with (requests_sent t + S i)%nat by lia.
      apply H. lia.
    + exists t'. rewrite E'.
      replace (attempt + 1 + Z.of_nat j) with (attempt + Z.of_nat (S j)) by lia.
      split; [destruct j; reflexivity|]. split; [|split].
      * rewrite Hreq, filter_app. cbn [filter is_request app].
        rewrite <- app_assoc. reflexivity.
      * rewrite Hsl, sleeps_taken_app. cbn. lia.
      * exists ([EvRequest q; EvPrint line; EvSleep interval] ++ lines)%list.
        now rewrite Ht', <- app_assoc.
Qed.

Lemma announced_requests (t : Trace) :
  requests_sent (announced t) = requests_sent t.
Proof. rewrite requests_sent_app. cbn. lia. Qed.


(** After [k - 1] rounds that are retried the poller stands before round
    [k], [k - 1] status queries and sleeps later. *)
Lemma poll_reaches_round (k : nat) (outs : nat -> pyval) (t : Trace) :
  (1 <= k)%nat -> Z.of_nat k <= max_attempts ->
  (forall i, (i < k - 1)%nat ->
     outcome (server (requests_sent t + i) q) = Ok (outs i) /\ retried (outs i)) ->
  exists last t',
    attempts (Z.to_nat max_attempts) 0 None (announced t)
    = attempts (S (Z.to_nat max_attempts - k)) (Z.of_nat (k - 1)) last t' /\
    requests_sent t' = (requests_sent t + (k - 1))%nat /\
    filter is_request t' = (filter is_request t ++ repeat (EvRequest q) (k - 1))%list /\
    sleeps_taken t' = (sleeps_taken t + (k - 1))%nat /\
    exists lines, t' = (t ++ lines)%list.
Proof.
  intros Hk Hmax H.
  destruct (retried_prefix (k - 1) (S (Z.to_nat max_attempts - k)) outs 0 None (announced t))
    as (t' & E & Hreq & Hsl & lines & Ht').
  { intros i Hi. rewrite announced_requests. now apply H. }
  replace ((k - 1) + S (Z.to_nat max_attempts - k))%nat
    with (Z.to_nat max_attempts) in E by lia.
  eexists. exists t'. rewrite Z.add_0_l in E. split; [exact E|].
  rewrite filter_app in Hreq. cbn [filter is_request polling_line] in Hreq.
  rewrite app_nil_r in Hreq.
  rewrite sleeps_taken_app in Hsl. cbn in Hsl. rewrite Nat.add_0_r in Hsl.
  split; [|split; [exact Hreq | split; [exact Hsl|]]].
  - unfold requests_sent. now rewrite Hreq, length_app, repeat_length.
  - exists (polling_line building_id building_analytics_id :: lines).
    now rewrite Ht', <- app_assoc.
Qed.

(** The account of a run that stops in round [k]. *)
Lemma stopped_in_round (k : nat) (t t' : Trace) (tail : list Event) :
  (1 <= k)%nat ->
  filter is_request t' = (filter is_request t ++ repeat (EvRequest q) (k - 1))%list ->
  sleeps_taken t' = (sleeps_taken t + (k - 1))%nat ->
  filter is_request tail = [] -> filter is_sleep tail = [] ->
  filter is_request (t' ++ EvRequest q :: tail)%list
  = (filter is_request t ++ repeat (EvRequest q) k)%list /\
  sleeps_taken (t' ++ EvRequest q :: tail)%list = (sleeps_taken t + (k - 1))%nat.
Proof.
  intros Hk Hreq Hsl Hr Hs. split.
  - rewrite filter_app, Hreq. cbn [filter is_request]. rewrite Hr, <- app_assoc, repeat_snoc.
    now replace (S (k - 1)) with k by lia.
  - rewrite sleeps_taken_app, Hsl. unfold sleeps_taken at 2. cbn [filter is_sleep].
    rewrite Hs. cbn. lia.
Qed.


(** The poller when round [k] is the first that is not in progress and
    brings a snapshot on which the loop returns. *)
Lemma poll_returns_at (k : nat) (snap : nat -> pyval) (final : pyval) (t : Trace)
    (closing : Event) :
  (1 <= k)%nat -> Z.of_nat k <= max_attempts ->
  (forall i, (i < k - 1)%nat ->
     outcome (server (requests_sent t + i) q) = Ok (snap i) /\
     reports "IN_PROGRESS" (snap i)) ->
  (forall todo last t',
     requests_sent t' = (requests_sent t + (k - 1))%nat ->
     attempts (S todo) (Z.of_nat (k - 1)) last t'
     = (Ok (Returned final),
        (t' ++ [EvRequest q;
                status_line (Z.of_nat k) max_attempts (generation_result_of final);
                closing])%list)) ->
  is_request closing = false -> is_sleep closing = false ->
  fst (poll t) = Ok final /\
  snd (poll t)
  = (t ++ polling_line building_id building_analytics_id
       :: waiting_rounds q interval max_attempts 0 (k - 1)
       ++ [EvRequest q;
           status_line (Z.of_nat k) max_attempts (generation_result_of final);
           closing])%list /\
  filter is_request (snd (poll t)) = (filter is_request t ++ repeat (EvRequest q) k)%list /\
  sleeps_taken (snd (poll t)) = (sleeps_taken t + (k - 1))%nat.
Proof.
  intros Hk Hmax H Hround Hreq Hsleep.
  rewrite poll_unfold, (poll_after_waiting (k - 1) snap t); [|lia|exact H].
  replace (Z.to_nat max_attempts - (k - 1))%nat
    with (S (Z.to_nat max_attempts - k)) by lia.
  rewrite Hround.
  2:{ rewrite requests_sent_app. f_equal. unfold requests_sent.
      cbn [filter is_request polling_line].
      now rewrite waiting_rounds_requests, repeat_length. }
  cbn [fst snd]. rewrite <- app_assoc. cbn [app].
  split; [reflexivity|]. split; [reflexivity|]. split.
  - rewrite filter_app. cbn [filter is_request polling_line].
    rewrite filter_app, waiting_rounds_requests.
    cbn [filter is_request status_line]. rewrite Hreq, repeat_snoc.
    now replace (S (k - 1)) with k by lia.
  - rewrite sleeps_taken_app. f_equal.
    change (sleeps_taken (polling_line building_id building_analytics_id :: ?l))
      with (sleeps_taken l).
    rewrite sleeps_taken_app, waiting_rounds_sleeps.
    unfold sleeps_taken. cbn [filter is_sleep status_line]. rewrite Hsleep.
    cbn. lia.
Qed.


(** C4, as amended. When round [k], with [1 <= k <= max_attempts], brings a
    snapshot (an object with some field and no ["error"] key) whose
    [generation_result] is absent or anything but COMPLETE, FAILED and
    IN_PROGRESS, whatever retried results the rounds before it brought
    (snapshots in progress, failure records, falsy values), the poller
    returns that snapshot at once: the request of round [k] is the last one,
    only the status line and the line about the unexpected status follow it,
    and no sleep, however many attempts are left.  A falsy result, the [None]
    of a response without body or an empty object, is not returned: in every
    round the poller prints the error line for it, sleeps and goes on to the
    next round. *)
Theorem poll_returns_unrecognized_status
    (k : nat) (outs : nat -> pyval) (final : pyval) (t : Trace) :
  ((1 <= k)%nat -> Z.of_nat k <= max_attempts ->
   (forall i, (i < k - 1)%nat ->
      outcome (server (requests_sent t + i) q) = Ok (outs i) /\ retried (outs i)) ->
   outcome (server (requests_sent t + (k - 1)) q) = Ok final ->
   snapshot final ->
   ~ recognized (generation_result_of final) ->
   fst (poll t) = Ok final /\
   (exists before,
      snd (poll t)
      = (t ++ before
           ++ [EvRequest q;
               status_line (Z.of_nat k) max_attempts (generation_result_of final);
               unexpected_line (generation_result_of final) final])%list) /\
   filter is_request (snd (poll t)) = (filter is_request t ++ repeat (EvRequest q) k)%list /\
   sleeps_taken (snd (poll t)) = (sleeps_taken t + (k - 1))%nat) /\
  (forall todo attempt last d u,
     outcome (server (requests_sent u) q) = Ok d ->
     Py.truthy d = false ->
     attempts (S todo) attempt last u
     = attempts todo (attempt + 1) (Some d)
         (u ++ [EvRequest q;
                error_line (attempt + 1) max_attempts
                  (PStr "Initial call failed, no details.");
                EvSleep interval])%list).
Proof.
  split; [|intros todo attempt last d u; apply round_falsy].
  intros Hk Hmax H Hout Hsnap Hgr.
  destruct (poll_reaches_round k outs t Hk Hmax H)
    as (last & t' & E & Hn & Hreq & Hsl & lines & Ht').
  rewrite poll_unfold, E. rewrite <- Hn in Hout.
  rewrite (round_snapshot _ _ _ _ _ Hout Hsnap). cbv zeta.
  unfold recognized in Hgr.
  rewrite !eq_str_other by (intros E'; apply Hgr; auto).
  cbn [fst snd].
  replace (Z.of_nat (k - 1) + 1) with (Z.of_nat k) by lia.
  split; [reflexivity|]. split.
  - exists lines. now rewrite Ht', <- app_assoc.
  - now apply stopped_in_round.
Qed.


(** One round of the loop on a truthy value that is no object: the
    exception of [in] or of [.get] ends the run. *)
Lemma round_non_object todo attempt last d t :
  outcome (server (requests_sent t) q) = Ok d ->
  truthy_non_object d ->
  exists e,
    attempts (S todo) attempt last t = (Raise e, (t ++ [EvRequest q])%list) /\
    (exn_class_of e = AttributeError \/ exn_class_of e = TypeError).
Proof.
  intros Hout (Htr & Hobj).
  simpl poll_attempts. unfold bind at 1. rewrite details_fetched, Hout, Htr.
  destruct d as [|b|z|m e|s|l|fields]; try discriminate Htr;
    try (eexists; split; [reflexivity | right; reflexivity]).
  - unfold bind at 1. unfold bind at 1, lift at 1. cbn [Py.contains].
    unfold ret at 1. destruct (negb (Str.occurs_in "error" s));
      eexists; (split; [reflexivity | left; reflexivity]).
  - unfold bind at 1. unfold bind at 1, lift at 1. cbn [Py.contains].
    unfold ret at 1. destruct (negb (existsb _ l));
      eexists; (split; [reflexivity | left; reflexivity]).
  - now elim (Hobj fields).
Qed.

(** X8. When round [k], with [1 <= k <= max_attempts], is the first whose
    status query brings a snapshot, an object without an ["error"] key, that
    reports FAILED, the rounds before it bringing snapshots that report
    IN_PROGRESS, the poller returns that snapshot itself after [k] status
    queries and [k - 1] sleeps, and the last line it prints carries the
    snapshot's [generation_message], or "No message provided." when it has
    none. *)
Theorem poll_returns_first_failed
    (k : nat) (snap : nat -> pyval) (final : pyval) (t : Trace) :
  (1 <= k)%nat -> Z.of_nat k <= max_attempts ->
  (forall i, (i < k - 1)%nat ->
     outcome (server (requests_sent t + i) q) = Ok (snap i) /\
     reports "IN_PROGRESS" (snap i)) ->
  outcome (server (requests_sent t + (k - 1)) q) = Ok final ->
  reports "FAILED" final ->
  fst (poll t) = Ok final /\
  snd (poll t)
  = (t ++ polling_line building_id building_analytics_id
       :: waiting_rounds q interval max_attempts 0 (k - 1)
       ++ [EvRequest q; status_line (Z.of_nat k) max_attempts (PStr "FAILED");
           failed_line (field_or "generation_message" (PStr "No message provided.")
                          final)])%list /\
  filter is_request (snd (poll t)) = (filter is_request t ++ repeat (EvRequest q) k)%list /\
  sleeps_taken (snd (poll t)) = (sleeps_taken t + (k - 1))%nat.
Proof.
  intros Hk Hmax H Hout (Hsnap & Hgr).
  rewrite <- Hgr.
  apply (poll_returns_at k snap final t _ Hk Hmax H); [|reflexivity..].
  intros todo last t' Ht'. rewrite <- Ht' in Hout.
  rewrite (round_snapshot _ _ _ _ _ Hout Hsnap).
  cbv zeta. rewrite Hgr. cbn [Py.eq_str String.eqb Ascii.eqb Bool.eqb].
  now replace (Z.of_nat (k - 1) + 1) with (Z.of_nat k) by lia.
Qed.

(** X9. Failed and empty status queries do not end the polling: when round
    [k], with [1 <= k <= max_attempts], is the first whose status query
    brings a snapshot that reports COMPLETE, and each round before it brought
    a snapshot in progress, a failure record or a falsy value, the poller
    returns the COMPLETE snapshot after [k] status queries and [k - 1]
    sleeps. *)
Theorem poll_retries_until_complete
    (k : nat) (outs : nat -> pyval) (final : pyval) (t : Trace) :
  (1 <= k)%nat -> Z.of_nat k <= max_attempts ->
  (forall i, (i < k - 1)%nat ->
     outcome (server (requests_sent t + i) q) = Ok (outs i) /\ retried (outs i)) ->
  outcome (server (requests_sent t + (k - 1)) q) = Ok final ->
  reports "COMPLETE" final ->
  fst (poll t) = Ok final /\
  filter is_request (snd (poll t)) = (filter is_request t ++ repeat (EvRequest q) k)%list /\
  sleeps_taken (snd (poll t)) = (sleeps_taken t + (k - 1))%nat.
Proof.
  intros Hk Hmax H Hout (Hsnap & Hgr).
  destruct (poll_reaches_round k outs t Hk Hmax H)
    as (last & t' & E & Hn & Hreq & Hsl & lines & Ht').
  rewrite poll_unfold, E. rewrite <- Hn in Hout.
  rewrite (round_snapshot _ _ _ _ _ Hout Hsnap). cbv zeta.
  rewrite Hgr. cbn [Py.eq_str String.eqb Ascii.eqb Bool.eqb fst snd].
  split; [reflexivity|]. now apply stopped_in_round.
Qed.

(** X11. A status query that brings a truthy value that is no object (a
    non-empty list or string, a number, [True]), in whatever round [k] and
    after whatever retried results, makes the poller raise, an
    [AttributeError] or a [TypeError], straight after the request of that
    round: nothing is returned, and nothing more is printed or slept. *)
Theorem poll_raises_on_non_object (k : nat) (outs : nat -> pyval) (d : pyval) (t : Trace) :
  (1 <= k)%nat -> Z.of_nat k <= max_attempts ->
  (forall i, (i < k - 1)%nat ->
     outcome (server (requests_sent t + i) q) = Ok (outs i) /\ retried (outs i)) ->
  outcome (server (requests_sent t + (k - 1)) q) = Ok d ->
  truthy_non_object d ->
  exists e,
    fst (poll t) = Raise e /\
    (exn_class_of e = AttributeError \/ exn_class_of e = TypeError) /\
    (exists before, snd (poll t) = (t ++ before ++ [EvRequest q])%list) /\
    filter is_request (snd (poll t)) = (filter is_request t ++ repeat (EvRequest q) k)%list /\
    sleeps_taken (snd (poll t)) = (sleeps_taken t + (k - 1))%nat.
Proof.
  intros Hk Hmax H Hout Hd.
  destruct (poll_reaches_round k outs t Hk Hmax H)
    as (last & t' & E & Hn & Hreq & Hsl & lines & Ht').
  rewrite <- Hn in Hout.
  destruct (round_non_object (Z.to_nat max_attempts - k) (Z.of_nat (k - 1)) last d t'
              Hout Hd) as (e & Er & He).
  exists e. rewrite poll_unfold, E, Er. cbn [fst snd].
  split; [reflexivity|]. split; [exact He|]. split.
  - exists lines. now rewrite Ht', <- app_assoc.
  - now apply stopped_in_round.
Qed.

(** The poller with credentials when every round is retried. *)
Lemma poll_times_out_with_credentials (outs : nat -> pyval) (t : Trace) :
  1 <= max_attempts ->
  (forall i, (i < Z.to_nat max_attempts)%nat ->
     outcome (server (requests_sent t + i) q) = Ok (outs i) /\ retried (outs i)) ->
  fst (poll t) = Ok (outs (Z.to_nat max_attempts - 1)%nat) /\
  (exists lines, snd (poll t) = (t ++ lines ++ [timed_out_line max_attempts])%list) /\
  filter is_request (snd (poll t))
  = (filter is_request t ++ repeat (EvRequest q) (Z.to_nat max_attempts))%list /\
  sleeps_taken (snd (poll t)) = (sleeps_taken t + Z.to_nat max_attempts)%nat.
Proof.
  intros Hmax H.
  rewrite poll_unfold.
  destruct (retried_prefix (Z.to_nat max_attempts) 0 outs 0 None (announced t))
    as (t' & E & Hreq & Hsl & lines & Ht').
  { intros i Hi'. rewrite announced_requests. now apply H. }
  rewrite Nat.add_0_r in E. rewrite E. cbn [poll_attempts ret].
  destruct (Z.to_nat max_attempts) as [|n] eqn:En; [lia|].
  replace (S n - 1)%nat with n by lia. cbn [fst snd].
  split; [reflexivity|]. split; [|split].
  - exists (polling_line building_id building_analytics_id :: lines).
    rewrite Ht', <- !app_assoc. reflexivity.
  - rewrite filter_app, Hreq, filter_app. cbn [filter is_request polling_line timed_out_line].
    now rewrite !app_nil_r.
  - rewrite sleeps_taken_app, Hsl, sleeps_taken_app. cbn. lia.
Qed.

End Poller.

Section PollerFailures.

Variable str_of : pyval -> string.
Variable server : nat -> Request -> NetReply.

Variables building_id building_analytics_id : pyval.
Variables api_key base_url : option string.
Variables interval max_attempts : Z.

Local Abbreviation attempts todo attempt last :=
  (poll_attempts str_of server todo attempt last building_id building_analytics_id
     api_key base_url interval max_attempts).

Local Abbreviation poll :=
  (poll_for_building_analysis_completion str_of server building_id building_analytics_id
     api_key base_url interval max_attempts).

(** The rounds of the loop without credentials: each status query comes
    back at once with the missing-credentials failure, and is followed by the
    error line and the sleep. *)
Lemma attempts_without_credentials (todo : nat) :
  missing api_key \/ missing base_url ->
  sleepable interval ->
  forall attempt last t, exists lines,
    attempts todo attempt last t
    = (Ok (Exhausted match todo with O => last | S _ => Some missing_credentials end),
       (t ++ lines)%list) /\
    filter is_request lines = [] /\
    sleeps_taken lines = todo.
Proof.
  intros Hmiss Hint.
  induction todo as [|todo IH]; intros attempt last t.
  - exists []. rewrite app_nil_r. repeat split.
  - simpl poll_attempts. unfold bind at 1.
    unfold get_building_analysis_details. rewrite run_ret.
    rewrite (make_request_without_credentials server _ _ _ _ _ _ _ Hmiss).
    change (Py.truthy missing_credentials) with true. cbv iota.
    change (Py.contains "error" missing_credentials) with (@Ok bool true).
    change (Py.get missing_credentials "message" (PStr "Unknown error"))
      with (Ok (PStr "Unknown error")).
    unfold bind at 1. rewrite run_lift. unfold ret at 1. cbn [negb]. cbv iota.
    rewrite run_lift, run_print. unfold bind at 1.
    rewrite (sleep_accepted _ _ Hint).
    destruct (IH (attempt + 1) (Some missing_credentials)
                ((t ++ [EvPrint (mkLine "  Attempt {}/{}: Error fetching analysis details: {}"
                                   [PInt (attempt + 1); PInt max_attempts;
                                    PStr "Unknown error"])])
                 ++ [EvSleep interval])%list)
      as (lines & E & Hreq & Hsl).
    rewrite E.
    exists (error_line (attempt + 1) max_attempts (PStr "Unknown error")
            :: EvSleep interval :: lines).
    split; [|split].
    + rewrite <- !app_assoc. cbn [app]. destruct todo; reflexivity.
    + cbn [filter is_request error_line]. exact Hreq.
    + unfold sleeps_taken in *. cbn [filter is_sleep error_line length]. now rewrite Hsl.
Qed.

Lemma poll_without_credentials (t : Trace) :
  missing api_key \/ missing base_url ->
  sleepable interval ->
  1 <= max_attempts ->
  exists lines,
    poll t = (Ok missing_credentials, (t ++ lines ++ [timed_out_line max_attempts])%list) /\
    filter is_request lines = [] /\
    sleeps_taken lines = Z.to_nat max_attempts.
Proof.
  intros Hmiss Hint Hmax. unfold poll_for_building_analysis_completion.
  rewrite run_print. unfold bind at 1.
  destruct (attempts_without_credentials (Z.to_nat max_attempts) Hmiss Hint 0 None
              (t ++ [polling_line building_id building_analytics_id])%list)
    as (lines & E & Hreq & Hsl).
  unfold polling_line in E. rewrite E.
  destruct (Z.to_nat max_attempts) as [|n] eqn:En; [lia|].
  rewrite run_print. unfold ret.
  exists (polling_line building_id building_analytics_id :: lines).
  split; [now rewrite <- !app_assoc|]. split.
  - cbn [filter is_request polling_line]. exact Hreq.
  - unfold sleeps_taken in *. cbn [filter is_sleep polling_line]. exact Hsl.
Qed.



(** X10. With at least one attempt allowed and an interval that
    [time.sleep] accepts, when every round brings a snapshot in progress, a
    failure record or a falsy value, the poller returns whatever the last
    status query gave, be it a snapshot, a failure record or [None], after
    [max_attempts] status queries and as many sleeps, with the timed-out line
    last.  Without credentials every status query gives the
    missing-credentials record: that is what is returned, after as many
    sleeps and no request. *)
Theorem poll_times_out_with_last_result (outs : nat -> pyval) (t : Trace) :
  (forall key base,
     api_key = Some key -> base_url = Some base -> key <> "" -> base <> "" ->
     sleepable interval -> 1 <= max_attempts ->
     (forall i, (i < Z.to_nat max_attempts)%nat ->
        outcome (server (requests_sent t + i)
                   (status_query str_of building_id building_analytics_id key base))
        = Ok (outs i) /\ retried (outs i)) ->
     fst (poll t) = Ok (outs (Z.to_nat max_attempts - 1)%nat) /\
     (exists lines, snd (poll t) = (t ++ lines ++ [timed_out_line max_attempts])%list) /\
     filter is_request (snd (poll t))
     = (filter is_request t
          ++ repeat (EvRequest (status_query str_of building_id building_analytics_id
                                  key base))
               (Z.to_nat max_attempts))%list /\
     sleeps_taken (snd (poll t)) = (sleeps_taken t + Z.to_nat max_attempts)%nat) /\
  (missing api_key \/ missing base_url ->
   sleepable interval -> 1 <= max_attempts ->
   fst (poll t) = Ok (PDict [("error", PStr "API_KEY and BASE_URL must be provided.")]) /\
   (exists lines, snd (poll t) = (t ++ lines ++ [timed_out_line max_attempts])%list) /\
   filter is_request (snd (poll t)) = filter is_request t /\
   sleeps_taken (snd (poll t)) = (sleeps_taken t + Z.to_nat max_attempts)%nat).
Proof.
  split.
  - intros key base -> -> Hk Hb Hint Hmax H.
    exact (poll_times_out_with_credentials str_of server building_id building_analytics_id
             key base interval max_attempts Hk Hb Hint outs t Hmax H).
  - intros Hmiss Hint Hmax.
    destruct (poll_without_credentials t Hmiss Hint Hmax) as (lines & E & Hreq & Hsl).
    rewrite E. cbn [fst snd]. split; [reflexivity|]. split; [now exists lines|].
    rewrite !filter_app, Hreq, !sleeps_taken_app, Hsl. cbn. rewrite app_nil_r.
    split; [reflexivity | lia].
Qed.

End PollerFailures.

(** ** Submission in [main] *)

(** The summary of an object whose status is not COMPLETE: the header, the
    status and the message. *)
Lemma display_unfinished (building_id : pyval) (fields : list (string * pyval))
    (status : string) (t : Trace) :
  Py.lookup "generation_result" fields = Some (PStr status) ->
  status <> "COMPLETE" ->
  display_analysis_summary building_id (PDict fields) t
  = (Ok tt,
     (t ++ [EvPrint (mkLine "\n--- Analysis Summary for Building ID: {} ---" [building_id]);
            EvPrint (mkLine "Analysis Status: {}" [PStr status]);
            EvPrint (mkLine "  Message: {}"
                       [field_or "generation_message" (PStr "N/A") (PDict fields)])])%list).
Proof.
  intros Egr Hst.
  assert (Htr : Py.truthy (PDict fields) = true)
    by (destruct fields; [discriminate Egr | reflexivity]).
  unfold display_analysis_summary.
  rewrite run_print, Htr. cbn [negb Py.contains]. rewrite Egr.
  unfold bind at 1. rewrite run_lift. unfold ret at 1. cbn [negb].
  unfold get_or at 1. cbn [Py.get]. rewrite Egr, run_lift.
  cbn [Py.eq_str]. apply String.eqb_neq in Hst. rewrite Hst. cbn [negb].
  rewrite run_print. unfold get_or, field_or. cbn [Py.get]. rewrite run_lift.
  unfold print, emit. now rewrite <- !app_assoc.
Qed.

Section Submission.

Variable str_of : pyval -> string.
Variable server : nat -> Request -> NetReply.

(** C5. When the response to the submission reports FAILED, the iteration
    of [main] for that building ends normally with printed lines only after
    the submission: no status query is sent and no sleep is taken, so the
    poller is not entered.  The response is what is shown: through
    [display_analysis_summary] when it carries an ["id"], as it is when it
    does not. *)
Theorem failed_submission_is_not_polled
    (building_id : Z) (savings_target_param : string) (min_r_squared_param : pyval)
    (api_key base_url : option string) (t submitted : Trace) (response : pyval) :
  run_building_analysis str_of server (PInt building_id) (PStr savings_target_param)
    min_r_squared_param api_key base_url
    (t ++ submission_lines building_id savings_target_param min_r_squared_param)%list
  = (Ok response, submitted) ->
  generation_result_of response = PStr "FAILED" ->
  let run := analyze_building str_of server building_id savings_target_param
               min_r_squared_param api_key base_url t in
  run = (Ok tt, (submitted ++ rejected_lines building_id response)%list) /\
  filter is_request (snd run) = filter is_request submitted /\
  filter is_sleep (snd run) = filter is_sleep submitted.
Proof.
  intros Hsub Hgr run.
  assert (Hrun : run = (Ok tt, (submitted ++ rejected_lines building_id response)%list)).
  { subst run. unfold analyze_building.
    rewrite !run_print, <- !app_assoc. cbn [app].
    fold (submission_lines building_id savings_target_param min_r_squared_param).
    unfold bind at 1. rewrite Hsub.
    destruct response as [| | | | | |fields]; try discriminate Hgr.
    simpl in Hgr.
    destruct (Py.lookup "generation_result" fields) as [gr|] eqn:Egr;
      [subst gr | discriminate Hgr].
    assert (Htr : Py.truthy (PDict fields) = true)
      by (destruct fields; [discriminate Egr | reflexivity]).
    rewrite Htr. cbn [negb Py.contains].
    unfold bind at 1. rewrite run_lift. unfold ret at 1.
    unfold rejected_lines, field_or. cbn [Py.getitem Py.get].
    destruct (Py.lookup "id" fields) as [id|] eqn:Eid; cbn [negb].
    - rewrite run_lift. unfold get_or at 1 2 3. cbn [Py.get]. rewrite Egr.
      rewrite run_lift, run_print, run_lift.
      cbn [Py.eq_str String.eqb Ascii.eqb Bool.eqb]. rewrite run_lift, run_print.
      rewrite (display_unfinished _ _ "FAILED" _ Egr) by discriminate.
      now rewrite <- !app_assoc.
    - reflexivity. }
  rewrite Hrun. cbn [snd]. split; [reflexivity|].
  rewrite !filter_app.
  assert (filter is_request (rejected_lines building_id response) = []
          /\ filter is_sleep (rejected_lines building_id response) = []) as [-> ->].
  { unfold rejected_lines. destruct (Py.getitem response "id"); split; reflexivity. }
  now rewrite !app_nil_r.
Qed.

End Submission.

(** ** Undecodable bodies *)

(** A response that [raise_for_status] lets through and whose body is there
    but does not decode: which record comes back depends on the class of the
    exception that [response.json()] raises.  The decoder's own
    [json.JSONDecodeError] reaches the third [except] clause; the
    [requests.exceptions.JSONDecodeError] of requests 2.27 and later is a
    [RequestException] and stops at the second. *)
Lemma undecodable_body_outcome (response : Response) (e : exn) :
  raise_for_status response = Ok tt ->
  content response <> "" ->
  json response = JsonRaises e ->
  is_JSONDecodeError e = true ->
  outcome (Responded response)
  = if is_RequestException e
    then Ok (PDict [("error", PStr "RequestException"); ("message", PStr (exn_str e))])
    else Ok (PDict [("error", PStr "JSONDecodeError"); ("message", PStr (exn_str e));
                    ("raw_response", PStr (text response))]).
Proof.
  intros Hst Hc Hj He. unfold outcome, read_response. rewrite Hst, Hj.
  apply String.eqb_neq in Hc. rewrite Hc. cbn [negb].
  unfold except_clauses. rewrite He.
  destruct e as [[] msg]; try discriminate He; reflexivity.
Qed.

(** C6. A GET that is answered with status 200 and a page of HTML, under
    requests 2.27 or later: the result is the record of the
    [RequestException] clause, with no [raw_response], and not the record of
    the [JSONDecodeError] clause. *)
Theorem undecodable_body_is_caught_as_RequestException :
  _make_request (always (Responded html_response))
    "GET" "/buildings/101/analytics/7/" PNone (PDict [])
    (Some example_key) (Some example_base) []
  = (Ok (PDict [("error", PStr "RequestException");
                ("message", PStr "Expecting value: line 1 column 1 (char 0)")]),
     [EvRequest (mkRequest GET "https://better.example/api/v1/buildings/101/analytics/7/"
                   (request_headers example_key) None (PDict []))]).
Proof. reflexivity. Qed.

(** ** Examples *)

Ltac check_snapshot :=
  split; [eexists; split; [reflexivity | split; [discriminate | reflexivity]]
         | reflexivity].


(** The claim of C4 as first stated fails: a status query answered with 200
    and the empty object, or with 204 and no body, has succeeded and carries no
    [generation_result], yet the poller does not return it: it sleeps, asks
    again, and returns what the second query brings. *)
Lemma empty_success_body_is_retried :
  outcome empty_object_reply = Ok (PDict []) /\
  outcome no_content_reply = Ok PNone /\
  generation_result_of (PDict []) = PNone /\
  ~ recognized PNone /\
  (let run := poll_for_building_analysis_completion plain_str
                (scripted [empty_object_reply] complete_reply)
                (PInt 101) (PInt 7) (Some example_key) (Some example_base) 10 3 [] in
   fst run = Ok complete_snapshot /\
   requests_sent (snd run) = 2%nat /\ sleeps_taken (snd run) = 1%nat) /\
  (let run := poll_for_building_analysis_completion plain_str
                (scripted [no_content_reply] complete_reply)
                (PInt 101) (PInt 7) (Some example_key) (Some example_base) 10 3 [] in
   fst run = Ok complete_snapshot /\
   requests_sent (snd run) = 2%nat /\ sleeps_taken (snd run) = 1%nat).
Proof.
  split; [reflexivity|]. split; [reflexivity|]. split; [reflexivity|]. split.
  - intros [H|[H|H]]; discriminate H.
  - split; vm_compute; repeat split.
Qed.


Ltac accepted := unfold sleepable; lia.

Ltac not_listed :=
  let H := fresh in
  intros H; simpl in H; repeat (destruct H as [H|H]; [discriminate H|]); exact H.




(** A refused connection, a response without body, and then a status the
    poller does not know. *)
Lemma poll_returns_unrecognized_status_witness :
  fst (poll_for_building_analysis_completion plain_str
         (scripted [connection_refused; no_content_reply] paused_reply)
         (PInt 101) (PInt 7) (Some example_key) (Some example_base) 10 30 [])
  = Ok paused_snapshot.
Proof.
  refine (proj1 (proj1 (poll_returns_unrecognized_status plain_str
                          (scripted [connection_refused; no_content_reply] paused_reply)
                          (PInt 101) (PInt 7) example_key example_base 10 30 _ _ _
                          3%nat (fun i => nth i [refused_record] PNone) paused_snapshot [])
                   _ _ _ _ _ _)).
  - discriminate.
  - discriminate.
  - accepted.
  - lia.
  - lia.
  - intros i Hi. destruct i as [|[|i]]; [| |simpl in Hi; lia]; (split; [reflexivity|]).
    + right. left. eexists. split; [reflexivity | discriminate].
    + right. right. reflexivity.
  - reflexivity.
  - eexists. split; [reflexivity | split; [discriminate | reflexivity]].
  - intros [H|[H|H]]; discriminate H.
Defined.

(** Building 101, rejected when it is submitted. *)
Lemma failed_submission_is_not_polled_witness :
  exists submitted,
    analyze_building plain_str (always failed_reply) 101 "NOMINAL" (PFloat 6 (-1))
      (Some example_key) (Some example_base) []
    = (Ok tt, (submitted ++ rejected_lines 101 failed_snapshot)%list) /\
    requests_sent submitted = 1%nat.
Proof.
  eexists. split.
  - refine (proj1 (failed_submission_is_not_polled plain_str (always failed_reply)
                     101 "NOMINAL" (PFloat 6 (-1)) (Some example_key) (Some example_base)
                     [] _ failed_snapshot _ _)); [lazy; reflexivity | reflexivity].
  - reflexivity.
Defined.

Lemma missing_credentials_fail_without_call_witness :
  fst (_make_request (always connection_refused) "GET" "/portfolios/" PNone PNone
         None (Some example_base) [])
  = Ok (PDict [("error", PStr "API_KEY and BASE_URL must be provided.")]).
Proof.
  refine (proj1 (missing_credentials_fail_without_call (always connection_refused)
                   "GET" "/portfolios/" PNone PNone None (Some example_base) [] _)).
  left. left. reflexivity.
Defined.

Lemma credentials_checked_before_method_witness :
  _make_request (always connection_refused) "PUT" "/portfolios/" PNone PNone
    (Some "") (Some example_base) []
  = (Ok missing_credentials, []).
Proof.
  refine (proj1 (credentials_checked_before_method (always connection_refused)
                   "PUT" "/portfolios/" PNone PNone (Some "") (Some example_base) [] _ _)).
  - left. right. reflexivity.
  - not_listed.
Defined.

Lemma unsupported_method_fails_without_call_witness :
  _make_request (always connection_refused) "PUT" "/portfolios/" PNone PNone
    (Some example_key) (Some example_base) []
  = (Ok (PDict [("error", PStr "Unsupported HTTP method: PUT")]), []).
Proof.
  refine (unsupported_method_fails_without_call (always connection_refused)
            "PUT" "/portfolios/" PNone PNone example_key example_base [] _ _ _ _).
  - discriminate.
  - discriminate.
  - reflexivity.
  - not_listed.
Defined.

Lemma request_url_ignores_boundary_slashes_witness :
  _make_request (always connection_refused) "GET" "portfolios/" PNone PNone
    (Some example_key) (Some (example_base ++ "/")) []
  = _make_request (always connection_refused) "GET" "/portfolios/" PNone PNone
      (Some example_key) (Some example_base) [].
Proof.
  refine (proj2 (proj2 (proj2
            (request_url_ignores_boundary_slashes example_base "portfolios/")))
            (always connection_refused) "GET" PNone PNone (Some example_key) [] _).
  discriminate.
Defined.


(** * Further properties *)

(** ** The dispatcher, reply by reply *)

Lemma raise_for_status_passes (response : Response) :
  passes response -> raise_for_status response = Ok tt.
Proof.
  unfold passes, raise_for_status. intros H.
  destruct (400 <=? status_code response) eqn:E1;
    destruct (status_code response <? 600) eqn:E2; try reflexivity.
  apply Z.leb_le in E1. apply Z.ltb_lt in E2. lia.
Qed.

Lemma raise_for_status_fails (response : Response) :
  400 <= status_code response < 600 ->
  raise_for_status response = Raise (mkExn HTTPError (http_error_str response)).
Proof.
  unfold raise_for_status. intros [H1 H2].
  apply Z.leb_le in H1. apply Z.ltb_lt in H2. now rewrite H1, H2.
Qed.

Lemma outcome_http_error (response : Response) :
  400 <= status_code response < 600 ->
  decodes_or_fails response ->
  outcome (Responded response)
  = Ok (http_error_record response (body_or_text response)).
Proof.
  intros Hst Hdec. unfold outcome, read_response.
  rewrite (raise_for_status_fails _ Hst).
  unfold except_clauses, http_error_record, body_or_text. cbn [is_HTTPError exn_class_of].
  destruct (json response) as [v|e] eqn:Ej; [reflexivity|].
  now rewrite (Hdec e Ej).
Qed.

Lemma outcome_success (response : Response) :
  passes response ->
  outcome (Responded response)
  = if String.eqb (content response) "" then Ok PNone
    else match json response with
         | JsonValue v => Ok v
         | JsonRaises e => except_clauses (Some response) e
         end.
Proof.
  intros Hst. unfold outcome, read_response.
  rewrite (raise_for_status_passes _ Hst).
  destruct (String.eqb (content response) ""); cbn [negb]; [reflexivity|].
  destruct (json response); reflexivity.
Qed.

Lemma except_clauses_decode (response : Response) (e : exn) :
  is_JSONDecodeError e = true ->
  exists record, except_clauses (Some response) e = Ok record /\ failure record.
Proof.
  intros He. unfold except_clauses.
  destruct e as [[] msg]; try discriminate He; cbn;
    eexists; (split; [reflexivity|]); eexists; (split; [reflexivity | discriminate]).
Qed.

(** The [try] statement ends with a value when the call fails as the
    transport fails and [response.json()] fails with decoding errors only. *)
Lemma outcome_returns (reply : NetReply) :
  fails_as_transport reply ->
  (forall response, reply = Responded response -> decodes_or_fails response) ->
  exists v, outcome reply = Ok v.
Proof.
  intros Hcall H. destruct reply as [msg|e|response].
  - eexists. reflexivity.
  - destruct (Hcall e eq_refl) as [Hreq Hhttp].
    cbn [outcome]. unfold except_clauses. rewrite Hhttp, Hreq. eauto.
  - specialize (H response eq_refl).
    destruct (Z_le_dec 400 (status_code response)) as [H1|H1];
      [destruct (Z_lt_dec (status_code response) 600) as [H2|H2]|].
    + rewrite outcome_http_error by (auto; lia). eauto.
    + rewrite outcome_success by (unfold passes; lia).
      destruct (String.eqb (content response) ""); [eauto|].
      destruct (json response) as [v|e] eqn:Ej; [eauto|].
      destruct (except_clauses_decode response e (H e Ej)) as (r & -> & _). eauto.
    + rewrite outcome_success by (unfold passes; lia).
      destruct (String.eqb (content response) ""); [eauto|].
      destruct (json response) as [v|e] eqn:Ej; [eauto|].
      destruct (except_clauses_decode response e (H e Ej)) as (r & -> & _). eauto.
Qed.

(** ** The dispatcher, call by call *)

Lemma upper_char_idempotent (c : ascii) : Str.upper_char (Str.upper_char c) = Str.upper_char c.
Proof. destruct c as [[] [] [] [] [] [] [] []]; reflexivity. Qed.

Lemma upper_idempotent (s : string) : Str.upper (Str.upper s) = Str.upper s.
Proof.
  induction s as [|c s IH]; simpl; [reflexivity|].
  now rewrite upper_char_idempotent, IH.
Qed.

Lemma rstrip_slashes (s : string) (n : nat) :
  Str.rstrip "/" (s ++ slashes n) = Str.rstrip "/" s.
Proof.
  revert s. induction n as [|n IH]; intros s; simpl.
  - f_equal. induction s as [|c s IHs]; simpl; [reflexivity | now rewrite IHs].
  - replace (s ++ String "/" (slashes n)) with ((s ++ "/") ++ slashes n).
    + now rewrite IH, rstrip_snoc.
    + induction s as [|c s IHs]; simpl; [reflexivity | now rewrite IHs].
Qed.

Lemma lstrip_slashes (s : string) (n : nat) :
  Str.lstrip "/" (slashes n ++ s) = Str.lstrip "/" s.
Proof. induction n as [|n IH]; simpl; [reflexivity | exact IH]. Qed.

Section DispatcherCalls.

Variable server : nat -> Request -> NetReply.

(** The three ways a call of [_make_request] can go. *)
Lemma make_request_shape method endpoint data params api_key base_url t :
  _make_request server method endpoint data params api_key base_url t
  = (Ok missing_credentials, t) \/
  _make_request server method endpoint data params api_key base_url t
  = (Ok (unsupported_method method), t) \/
  exists r,
    req_url r = request_url (the base_url) endpoint /\
    req_headers r = request_headers (the api_key) /\
    req_params r = params /\
    (req_json r = None \/ req_json r = Some data) /\
    _make_request server method endpoint data params api_key base_url t
    = (outcome (server (requests_sent t) r), (t ++ [EvRequest r])%list).
Proof.
  unfold _make_request.
  destruct (absent api_key || absent base_url); [now left|]. right.
  destruct (String.eqb (Str.upper method) "GET");
    [right; eexists; repeat split; auto|].
  destruct (String.eqb (Str.upper method) "POST");
    [right; eexists; repeat split; auto|].
  destruct (String.eqb (Str.upper method) "PATCH");
    [right; eexists; repeat split; auto|].
  destruct (String.eqb (Str.upper method) "DELETE");
    [right; eexists; repeat split; auto|].
  now left.
Qed.

(** X1. A call never retries and never waits: the trace is left as it was, or
    grows by one request, which goes to the URL of line 18 with the
    three headers and the given query parameters. *)
Theorem make_request_sends_at_most_once method endpoint data params api_key base_url t :
  let run := _make_request server method endpoint data params api_key base_url t in
  snd run = t \/
  exists r,
    snd run = (t ++ [EvRequest r])%list /\
    req_url r = request_url (the base_url) endpoint /\
    req_headers r = [("Authorization", "Token " ++ the api_key);
                     ("Content-Type", "application/json");
                     ("Accept", "application/json")] /\
    req_params r = params.
Proof.
  intros run. subst run.
  destruct (make_request_shape method endpoint data params api_key base_url t)
    as [E|[E|(r & Hu & Hh & Hp & _ & E)]]; rewrite E; cbn [snd]; [now left..|].
  right. exists r. auto.
Qed.

(** X2. [_make_request] returns and does not raise, whatever it is given,
    as long as the call into [requests] fails only as the transport fails,
    with a [RequestException], and [response.json()] fails with decoding
    errors only.  (A call that raises something else, the [TypeError] of query
    parameters that cannot be encoded for one, is not caught.) *)
Theorem make_request_never_raises method endpoint data params api_key base_url t :
  (forall n r, fails_as_transport (server n r)) ->
  (forall n r response, server n r = Responded response -> decodes_or_fails response) ->
  exists v,
    fst (_make_request server method endpoint data params api_key base_url t) = Ok v.
Proof.
  intros Hcall H.
  destruct (make_request_shape method endpoint data params api_key base_url t)
    as [E|[E|(r & _ & _ & _ & _ & E)]]; rewrite E; cbn [fst]; eauto.
  apply outcome_returns; [apply Hcall|]. intros response Hr. exact (H _ _ _ Hr).
Qed.

(** X3. A response with a status from 400 to 599 comes back as the
    [HTTPError] record: the status code, the text of the error, and for
    details the decoded body, or the text of the body when it does not
    decode.  One request has been sent. *)
Theorem http_error_is_reported method endpoint data params key base t response :
  key <> "" -> base <> "" -> In (Str.upper method) supported_methods ->
  (forall r, server (requests_sent t) r = Responded response) ->
  400 <= status_code response < 600 ->
  decodes_or_fails response ->
  let run := _make_request server method endpoint data params (Some key) (Some base) t in
  fst run
  = Ok (PDict [("error", PStr "HTTPError");
               ("status_code", PInt (status_code response));
               ("message", PStr (http_error_str response));
               ("details", body_or_text response)]) /\
  requests_sent (snd run) = S (requests_sent t).
Proof.
  intros Hk Hb Hm Hs Hst Hdec run. subst run.
  destruct (make_request_dispatched server method endpoint data params key base t Hk Hb Hm)
    as (r & _ & _ & _ & E).
  rewrite E, Hs, (outcome_http_error _ Hst Hdec). cbn [fst snd].
  split; [reflexivity|]. rewrite requests_sent_app. cbn. lia.
Qed.

(** X4. A response with any other status comes back as its decoded body,
    unchanged, when it has content that decodes, and as [None] when it has no
    content; in that case the body is not decoded at all. *)
Theorem success_body_is_returned method endpoint data params key base t response :
  key <> "" -> base <> "" -> In (Str.upper method) supported_methods ->
  (forall r, server (requests_sent t) r = Responded response) ->
  passes response ->
  let run := _make_request server method endpoint data params (Some key) (Some base) t in
  (content response = "" -> fst run = Ok PNone) /\
  (forall v, content response <> "" -> json response = JsonValue v -> fst run = Ok v).
Proof.
  intros Hk Hb Hm Hs Hst run. subst run.
  destruct (make_request_dispatched server method endpoint data params key base t Hk Hb Hm)
    as (r & _ & _ & _ & E).
  rewrite E, Hs, (outcome_success _ Hst). cbn [fst]. split.
  - intros ->. reflexivity.
  - intros v Hc Hj. apply String.eqb_neq in Hc. now rewrite Hc, Hj.
Qed.

(** X5. The methods are taken without regard to case: a method whose
    upper-case form is supported is handled as that form. *)
Theorem method_case_is_ignored method endpoint data params api_key base_url t :
  In (Str.upper method) supported_methods ->
  _make_request server method endpoint data params api_key base_url t
  = _make_request server (Str.upper method) endpoint data params api_key base_url t.
Proof.
  intros Hm. unfold _make_request. rewrite upper_idempotent.
  destruct (absent api_key || absent base_url); [reflexivity|].
  unfold supported_methods in Hm. simpl in Hm.
  destruct Hm as [E|[E|[E|[E|[]]]]]; rewrite <- E; reflexivity.
Qed.

(** X6. A GET and a DELETE carry no JSON body: the [data] argument has no
    effect on the request that is sent, nor on the result. *)
Theorem get_and_delete_drop_the_body method endpoint data params api_key base_url t :
  Str.upper method = "GET" \/ Str.upper method = "DELETE" ->
  _make_request server method endpoint data params api_key base_url t
  = _make_request server method endpoint PNone params api_key base_url t.
Proof.
  intros Hm. unfold _make_request.
  destruct (absent api_key || absent base_url); [reflexivity|].
  destruct Hm as [-> | ->]; reflexivity.
Qed.

End DispatcherCalls.

(** X7. The URL is the same for any number of slashes at the end of the base
    URL and at the start of the endpoint. *)
Theorem request_url_ignores_repeated_slashes (base_url endpoint : string) (n m : nat) :
  request_url (base_url ++ slashes n) (slashes m ++ endpoint)
  = request_url base_url endpoint.
Proof.
  unfold request_url. now rewrite rstrip_slashes, lstrip_slashes.
Qed.

(** ** The poller and an interval that cannot be slept *)

Lemma sleep_refused (interval : Z) (t : Trace) :
  ~ sleepable interval ->
  exists e,
    sleep interval t = (Raise e, t) /\
    exn_class_of e = if fits_clock interval then ValueError else OverflowError.
Proof.
  unfold sleepable, sleep. intros H.
  destruct (fits_clock interval) eqn:F; cbn [negb].
  - unfold fits_clock in F. apply andb_prop in F. destruct F as [_ F].
    apply Z.leb_le in F.
    replace (interval <? 0) with true by (symmetry; apply Z.ltb_lt; lia).
    eexists. split; reflexivity.
  - eexists. split; reflexivity.
Qed.

Section PollerRounds.

Variable str_of : pyval -> string.
Variable server : nat -> Request -> NetReply.

Variables building_id building_analytics_id : pyval.
Variables key base : string.
Variables interval max_attempts : Z.

Hypothesis key_present : key <> "".
Hypothesis base_present : base <> "".

Local Abbreviation q := (status_query str_of building_id building_analytics_id key base).

Local Abbreviation poll :=
  (poll_for_building_analysis_completion str_of server building_id building_analytics_id
     (Some key) (Some base) interval max_attempts).

Local Abbreviation fetched t :=
  (details_fetched str_of server building_id building_analytics_id key base
     key_present base_present t).

(** X12. With an interval that [time.sleep] does not accept, the first round
    that would wait raises instead, the [ValueError] of a negative interval
    that fits the clock and the [OverflowError] of one that does not fit it:
    one status query has been sent, its line printed, and the poller returns
    nothing. *)
Theorem poll_raises_on_bad_interval (d : pyval) (t : Trace) :
  ~ sleepable interval ->
  1 <= max_attempts ->
  outcome (server (requests_sent t) q) = Ok d ->
  retried d ->
  exists e line,
    poll t = (Raise e,
              (t ++ [polling_line building_id building_analytics_id;
                     EvRequest q; EvPrint line])%list) /\
    exn_class_of e = if fits_clock interval then ValueError else OverflowError.
Proof.
  intros Hbad Hmax Hout Hret.
  rewrite poll_unfold.
  destruct (Z.to_nat max_attempts) as [|n] eqn:En; [lia|].
  simpl poll_attempts. unfold bind at 1.
  rewrite (fetched _), requests_sent_app.
  change (requests_sent [polling_line building_id building_analytics_id]) with O.
  rewrite Nat.add_0_r, Hout, <- app_assoc. cbn [app].
  destruct Hret as [((fields & -> & Hne & Herr) & Hgr)|[(fields & -> & Herr)|Hfalsy]].
  - assert (Htr : Py.truthy (PDict fields) = true)
      by (destruct fields; [contradiction | reflexivity]).
    rewrite Htr. unfold bind at 1. unfold bind at 1, lift at 1.
    cbn [Py.contains]. rewrite Herr. unfold ret at 1. cbn [negb]. cbv iota.
    cbn [Py.get]. rewrite run_lift. simpl in Hgr.
    destruct (Py.lookup "generation_result" fields) as [gr|]; [|discriminate Hgr].
    subst gr. rewrite run_print. cbn [Py.eq_str String.eqb Ascii.eqb Bool.eqb].
    unfold bind at 1.
    match goal with
    | |- context [sleep interval ?u] =>
        destruct (sleep_refused interval u Hbad) as (e & -> & He)
    end.
    rewrite <- app_assoc. cbn [app].
    exists e. eexists. split; [reflexivity | exact He].
  - assert (Htr : Py.truthy (PDict fields) = true).
    { destruct fields; [now elim Herr | reflexivity]. }
    rewrite Htr. unfold bind at 1. unfold bind at 1, lift at 1.
    cbn [Py.contains].
    destruct (Py.lookup "error" fields) as [x|] eqn:Ex; [|now elim Herr].
    unfold ret at 1. cbn [negb]. cbv iota.
    cbn [Py.get]. rewrite run_lift, run_print.
    unfold bind at 1.
    match goal with
    | |- context [sleep interval ?u] =>
        destruct (sleep_refused interval u Hbad) as (e & -> & He)
    end.
    rewrite <- app_assoc. cbn [app].
    exists e. eexists. split; [reflexivity | exact He].
  - rewrite Hfalsy. rewrite run_ret. cbv iota. rewrite run_ret, run_print.
    unfold bind at 1.
    match goal with
    | |- context [sleep interval ?u] =>
        destruct (sleep_refused interval u Hbad) as (e & -> & He)
    end.
    rewrite <- app_assoc. cbn [app].
    exists e. eexists. split; [reflexivity | exact He].
Qed.

End PollerRounds.

(** ** The attempt cap *)

Section Cap.

Variable str_of : pyval -> string.
Variable server : nat -> Request -> NetReply.

Variables building_id building_analytics_id : pyval.
Variables api_key base_url : option string.
Variables interval max_attempts : Z.

Local Abbreviation attempts todo attempt last :=
  (poll_attempts str_of server todo attempt last building_id building_analytics_id
     api_key base_url interval max_attempts).

Local Abbreviation details :=
  (get_building_analysis_details str_of server building_id building_analytics_id
     api_key base_url false false).

(** A status query sends at most one request and does not sleep. *)
Lemma details_grows (t : Trace) :
  (requests_sent (snd (details t)) <= requests_sent t + 1)%nat /\
  sleeps_taken (snd (details t)) = sleeps_taken t.
Proof.
  unfold get_building_analysis_details. rewrite run_ret.
  match goal with
  | |- context [_make_request server ?m ?e ?d ?p api_key base_url t] =>
      destruct (make_request_shape server m e d p api_key base_url t)
        as [E|[E|(r & _ & _ & _ & _ & E)]]; rewrite E
  end; cbn [snd]; rewrite ?requests_sent_app, ?sleeps_taken_app; cbn; lia.
Qed.

Ltac count_events :=
  cbn [fst snd]; rewrite ?requests_sent_app, ?sleeps_taken_app;
  unfold requests_sent, sleeps_taken in *;
  cbn [filter is_request is_sleep length] in *; lia.

Lemma attempts_bounded (todo : nat) :
  forall attempt last t result t',
    attempts todo attempt last t = (result, t') ->
    (requests_sent t' <= requests_sent t + todo)%nat /\
    (sleeps_taken t' <= sleeps_taken t + todo)%nat.
Proof.
  induction todo as [|todo IH]; intros attempt last t result t' H.
  { cbn [poll_attempts] in H. unfold ret in H. injection H as _ <-. lia. }
  simpl poll_attempts in H. unfold bind at 1 in H.
  destruct (details_grows t) as [Hr Hs].
  destruct (details t) as [[d|e] t1]; cbn [snd] in Hr, Hs;
    [|injection H as _ <-; lia].
  assert (Hwait : forall line,
            (sleep interval ;; attempts todo (attempt + 1) (Some d))
              (t1 ++ [EvPrint line])%list = (result, t') ->
            (requests_sent t' <= requests_sent t + S todo)%nat /\
            (sleeps_taken t' <= sleeps_taken t + S todo)%nat).
  { intros line E. unfold bind, sleep in E.
    destruct (negb (fits_clock interval)).
    { unfold lift in E. injection E as _ <-. count_events. }
    destruct (interval <? 0).
    - unfold lift in E. injection E as _ <-. count_events.
    - unfold emit in E. apply IH in E.
      rewrite !requests_sent_app, !sleeps_taken_app in E. count_events. }
  destruct (Py.truthy d).
  - unfold bind at 1 in H. unfold bind at 1, lift at 1 in H.
    destruct (Py.contains "error" d) as [[]|e]; [| |injection H as _ <-; lia];
      unfold ret at 1 in H; cbn [negb] in H; cbv iota in H.
    + unfold bind at 1, lift at 1 in H.
      destruct (Py.get d "message" (PStr "Unknown error")) as [m|e];
        [|injection H as _ <-; lia].
      rewrite run_print in H. now apply Hwait in H.
    + unfold bind at 1, lift at 1 in H.
      destruct (Py.get d "generation_result" PNone) as [gr|e];
        [|injection H as _ <-; lia].
      rewrite run_print in H.
      destruct (Py.eq_str gr "COMPLETE").
      { rewrite run_print in H. unfold ret in H. injection H as _ <-. count_events. }
      destruct (Py.eq_str gr "FAILED").
      { unfold bind at 1, lift at 1 in H.
        destruct (Py.get d "generation_message" (PStr "No message provided."));
          [rewrite run_print in H; unfold ret in H|]; injection H as _ <-; count_events. }
      destruct (Py.eq_str gr "IN_PROGRESS"); [now apply Hwait in H|].
      rewrite run_print in H. unfold ret in H. injection H as _ <-. count_events.
  - rewrite run_ret in H. cbv iota in H. rewrite run_ret, run_print in H.
    now apply Hwait in H.
Qed.

(** X13. Whatever the service answers and whatever the arguments are, the
    poller sends at most [max_attempts] requests and sleeps at most
    [max_attempts] times. *)
Theorem poll_never_exceeds_the_cap (t : Trace) :
  let run := poll_for_building_analysis_completion str_of server
               building_id building_analytics_id api_key base_url
               interval max_attempts t in
  (requests_sent (snd run) <= requests_sent t + Z.to_nat max_attempts)%nat /\
  (sleeps_taken (snd run) <= sleeps_taken t + Z.to_nat max_attempts)%nat.
Proof.
  intros run. destruct run as [result u] eqn:H. subst run. cbn [snd].
  unfold poll_for_building_analysis_completion in H.
  rewrite run_print in H. unfold bind at 1 in H.
  destruct (poll_attempts _ _ _ _ _ _ _ _ _ _ _ _) as [[[d|l]|e] t'] eqn:E;
    apply attempts_bounded in E;
    rewrite requests_sent_app, sleeps_taken_app in E.
  - unfold ret in H. injection H as _ <-. count_events.
  - rewrite run_print in H. unfold ret in H. injection H as _ <-. count_events.
  - injection H as _ <-. count_events.
Qed.

End Cap.

(** ** What a computation costs *)

Lemma costs_ret {A} (a : A) : costs (ret a) 0 0.
Proof. intros t r t' H. unfold ret in H. injection H as _ <-. lia. Qed.

Lemma costs_lift {A} (r : result A) : costs (lift r) 0 0.
Proof. intros t r' t' H. unfold lift in H. injection H as _ <-. lia. Qed.

Lemma costs_print (text : string) (args : list pyval) : costs (print text args) 0 0.
Proof.
  intros t r t' H. unfold print, emit in H. injection H as _ <-.
  rewrite requests_sent_app, sleeps_taken_app. cbn. lia.
Qed.

Lemma costs_sleep (seconds : Z) : costs (sleep seconds) 0 1.
Proof.
  intros t r t' H. unfold sleep in H.
  destruct (negb (fits_clock seconds)); [unfold lift in H; injection H as _ <-; lia|].
  destruct (seconds <? 0).
  - unfold lift in H. injection H as _ <-. lia.
  - unfold emit in H. injection H as _ <-.
    rewrite requests_sent_app, sleeps_taken_app. cbn. lia.
Qed.

Lemma costs_bind {A B} (c : M A) (k : A -> M B) (r1 s1 r2 s2 : nat) :
  costs c r1 s1 -> (forall a, costs (k a) r2 s2) -> costs (bind c k) (r1 + r2) (s1 + s2).
Proof.
  intros Hc Hk t r t' H. unfold bind in H.
  destruct (c t) as [[a|e] t1] eqn:E; apply Hc in E.
  - apply Hk in H. lia.
  - injection H as _ <-. lia.
Qed.

Lemma costs_more {A} (c : M A) (r s r' s' : nat) :
  costs c r s -> (r <= r')%nat -> (s <= s')%nat -> costs c r' s'.
Proof. intros Hc Hr Hs t res t' H. apply Hc in H. lia. Qed.

(** A step that costs nothing in front of a computation. *)
Lemma costs_after {A B} (c : M A) (k : A -> M B) (r s : nat) :
  costs c 0 0 -> (forall a, costs (k a) r s) -> costs (bind c k) r s.
Proof. intros Hc Hk. exact (costs_bind c k 0 0 r s Hc Hk). Qed.

Ltac free_steps :=
  repeat first
    [ apply costs_ret
    | apply costs_lift
    | apply costs_print
    | apply costs_after; [|intros ?]
    | match goal with
      | |- costs (if ?b then _ else _) _ _ => destruct b
      | |- costs (get_or _ _ _) _ _ => unfold get_or
      end ].

Lemma print_model_fit_costs inverse_model key_ r2_text cvrmse_text :
  costs (print_model_fit inverse_model key_ r2_text cvrmse_text) 0 0.
Proof. unfold print_model_fit. free_steps. Qed.

(** The summary only prints. *)
Lemma display_costs building_id analysis_results :
  costs (display_analysis_summary building_id analysis_results) 0 0.
Proof.
  unfold display_analysis_summary.
  repeat first
    [ apply print_model_fit_costs
    | apply costs_ret
    | apply costs_lift
    | apply costs_print
    | apply costs_after; [|intros ?]
    | match goal with
      | |- costs (if ?b then _ else _) _ _ => destruct b
      | |- costs (get_or _ _ _) _ _ => unfold get_or
      end ].
Qed.

(** ** [main], building by building *)

Section Buildings.

Variable str_of : pyval -> string.
Variable server : nat -> Request -> NetReply.

Lemma make_request_costs method endpoint data params api_key base_url :
  costs (_make_request server method endpoint data params api_key base_url) 1 0.
Proof.
  intros t r t' H.
  destruct (make_request_shape server method endpoint data params api_key base_url t)
    as [E|[E|(q & _ & _ & _ & _ & E)]]; rewrite E in H; injection H as _ <-;
    rewrite ?requests_sent_app, ?sleeps_taken_app; cbn; lia.
Qed.

Lemma poll_costs building_id building_analytics_id api_key base_url interval max_attempts :
  costs (poll_for_building_analysis_completion str_of server building_id
           building_analytics_id api_key base_url interval max_attempts)
    (Z.to_nat max_attempts) (Z.to_nat max_attempts).
Proof.
  unfold poll_for_building_analysis_completion.
  apply costs_after; [apply costs_print|]. intros _.
  eapply costs_more;
    [apply (costs_bind _ _ (Z.to_nat max_attempts) (Z.to_nat max_attempts) 0 0)
    | lia | lia].
  - intros t r t' H. now apply attempts_bounded in H.
  - intros [d|last]; [apply costs_ret|].
    apply costs_after; [apply costs_print | intros _; apply costs_ret].
Qed.

(** X14. One building costs at most 31 requests, the submission and 30 status
    queries, and 30 sleeps, however the service behaves and however the
    iteration ends; a list of buildings costs at most that for each. *)
Theorem analyze_buildings_cost building_ids savings_target_param min_r_squared_param
    api_key base_url :
  costs (analyze_buildings str_of server building_ids savings_target_param
           min_r_squared_param api_key base_url)
    (31 * length building_ids) (30 * length building_ids).
Proof.
  assert (Hone : forall building_id,
            costs (analyze_building str_of server building_id savings_target_param
                     min_r_squared_param api_key base_url) 31 30).
  { intros building_id. unfold analyze_building.
    do 3 (apply costs_after; [apply costs_print | intros _]).
    unfold run_building_analysis.
    apply (costs_bind _ _ 1 0 30 30); [apply make_request_costs|]. intros response.
    apply costs_after; [free_steps|]. intros rejected.
    destruct rejected.
    - eapply costs_more; [apply costs_print | lia | lia].
    - apply costs_after; [free_steps|]. intros building_analytics_id.
      apply costs_after; [free_steps|]. intros initial.
      apply costs_after; [free_steps|]. intros _.
      apply costs_after; [free_steps|]. intros status.
      destruct (Py.eq_str status "FAILED").
      + eapply costs_more; [|apply Nat.le_0_l..].
        apply costs_after; [free_steps|]. intros message.
        apply costs_after; [free_steps|]. intros _. apply display_costs.
      + eapply costs_more;
          [apply (costs_bind _ _ 30 30 0 0); [apply (poll_costs _ _ _ _ 10 30)|]
          | lia | lia].
        intros final. apply display_costs. }
  induction building_ids as [|building_id rest IH]; cbn [analyze_buildings length].
  - eapply costs_more; [apply costs_print | lia | lia].
  - eapply costs_more;
      [apply (costs_bind _ _ 31 30 (31 * length rest) (30 * length rest));
       [apply Hone | intros _; exact IH]
      | lia | lia].
Qed.

(** The iteration for a building whose submission gave nothing usable, a
    falsy value or an object without an ["id"]: lines 116 to 118. *)
Lemma analyze_building_rejected building_id savings_target_param min_r_squared_param
    api_key base_url t submitted response :
  run_building_analysis str_of server (PInt building_id) (PStr savings_target_param)
    min_r_squared_param api_key base_url
    (t ++ submission_lines building_id savings_target_param min_r_squared_param)%list
  = (Ok response, submitted) ->
  Py.truthy response = false \/
  (exists fields, response = PDict fields /\ Py.lookup "id" fields = None) ->
  analyze_building str_of server building_id savings_target_param min_r_squared_param
    api_key base_url t
  = (Ok tt, (submitted ++ [trigger_failed_line building_id response])%list).
Proof.
  intros Hsub Hresp. unfold analyze_building.
  rewrite !run_print, <- !app_assoc. cbn [app].
  fold (submission_lines building_id savings_target_param min_r_squared_param).
  unfold bind at 1. rewrite Hsub.
  destruct Hresp as [Hfalsy|(fields & -> & Hid)].
  - rewrite Hfalsy. cbn [negb]. rewrite run_ret. reflexivity.
  - destruct (Py.truthy (PDict fields)); cbn [negb].
    + unfold bind at 1. cbn [Py.contains]. rewrite Hid, run_lift. unfold ret at 1.
      reflexivity.
    + rewrite run_ret. reflexivity.
Qed.

(** X15. A submission that comes back falsy or as an object without an
    ["id"], as every failure record of the dispatcher does, ends the
    iteration for that building with one more line, which shows the response:
    the poller is not entered, no request follows the submission and nothing
    is slept. *)
Theorem submission_without_id_is_not_polled
    building_id savings_target_param min_r_squared_param
    api_key base_url t submitted response :
  run_building_analysis str_of server (PInt building_id) (PStr savings_target_param)
    min_r_squared_param api_key base_url
    (t ++ submission_lines building_id savings_target_param min_r_squared_param)%list
  = (Ok response, submitted) ->
  Py.truthy response = false \/
  (exists fields, response = PDict fields /\ Py.lookup "id" fields = None) ->
  let run := analyze_building str_of server building_id savings_target_param
               min_r_squared_param api_key base_url t in
  run = (Ok tt,
         (submitted ++
          [EvPrint (mkLine "  Failed to trigger analysis for building {}. Response: {}"
                      [PInt building_id; response])])%list) /\
  requests_sent (snd run) = requests_sent submitted /\
  sleeps_taken (snd run) = sleeps_taken submitted.
Proof.
  intros Hsub Hresp run. subst run.
  rewrite (analyze_building_rejected _ _ _ _ _ _ _ _ Hsub Hresp). cbn [snd].
  split; [reflexivity|]. rewrite requests_sent_app, sleeps_taken_app. cbn. lia.
Qed.

(** The loop of [main] when no submission reaches the service. *)
Lemma analyze_buildings_without_credentials building_ids savings_target_param
    min_r_squared_param api_key base_url :
  missing api_key \/ missing base_url ->
  forall t, exists lines,
    analyze_buildings str_of server building_ids savings_target_param
      min_r_squared_param api_key base_url t
    = (Ok tt, (t ++ lines ++ [session_ended_line])%list) /\
    filter is_request lines = [] /\
    filter is_sleep lines = [] /\
    forall building_id,
      In building_id building_ids ->
      In (trigger_failed_line building_id missing_credentials) lines.
Proof.
  intros Hmiss.
  induction building_ids as [|building_id rest IH]; intros t; cbn [analyze_buildings].
  - exists []. split; [reflexivity|]. split; [reflexivity|]. split; [reflexivity|].
    intros b [].
  - unfold bind at 1.
    rewrite (analyze_building_rejected building_id savings_target_param
               min_r_squared_param api_key base_url t
               (t ++ submission_lines building_id savings_target_param
                       min_r_squared_param)%list missing_credentials).
    + destruct (IH ((t ++ submission_lines building_id savings_target_param
                            min_r_squared_param)
                    ++ [trigger_failed_line building_id missing_credentials])%list)
        as (lines & E & Hreq & Hsl & Hin).
      rewrite E.
      exists (submission_lines building_id savings_target_param min_r_squared_param
              ++ trigger_failed_line building_id missing_credentials :: lines)%list.
      split; [now rewrite <- !app_assoc|].
      rewrite !filter_app. cbn [filter is_request is_sleep submission_lines
                                  trigger_failed_line app].
      rewrite Hreq, Hsl. split; [reflexivity|]. split; [reflexivity|].
      intros b [<-|Hb]; cbn [In]; [tauto | do 4 right; now apply Hin].
    + unfold run_building_analysis. now apply make_request_without_credentials.
    + right. eexists. split; reflexivity.
Qed.

(** X16. Without an API key or a base URL the loop of [main] goes through
    every building without sending a request or sleeping, prints for each of
    them the line that shows the missing-credentials failure, and ends
    normally with its closing line. *)
Theorem no_credentials_no_traffic building_ids savings_target_param
    min_r_squared_param api_key base_url t :
  missing api_key \/ missing base_url ->
  let run := analyze_buildings str_of server building_ids savings_target_param
               min_r_squared_param api_key base_url t in
  fst run = Ok tt /\
  filter is_request (snd run) = filter is_request t /\
  filter is_sleep (snd run) = filter is_sleep t /\
  (forall building_id,
     In building_id building_ids ->
     In (EvPrint (mkLine "  Failed to trigger analysis for building {}. Response: {}"
                    [PInt building_id;
                     PDict [("error", PStr "API_KEY and BASE_URL must be provided.")]]))
        (snd run)) /\
  exists before, snd run = (before ++ [session_ended_line])%list.
Proof.
  intros Hmiss run. subst run.
  destruct (analyze_buildings_without_credentials building_ids savings_target_param
              min_r_squared_param api_key base_url Hmiss t)
    as (lines & E & Hreq & Hsl & Hin).
  rewrite E. cbn [fst snd]. split; [reflexivity|].
  rewrite !filter_app, Hreq, Hsl. cbn. rewrite !app_nil_r.
  split; [reflexivity|]. split; [reflexivity|]. split.
  - intros b Hb. apply in_or_app. right. apply in_or_app. left. now apply Hin.
  - exists (t ++ lines)%list. now rewrite <- app_assoc.
Qed.

(** The loop of [main] when the transport fails on every request. *)
Lemma analyze_buildings_unreachable building_ids savings_target_param
    min_r_squared_param key base :
  key <> "" -> base <> "" ->
  (forall n r, exists msg, server n r = ConnectionFailed msg) ->
  forall t, exists t',
    analyze_buildings str_of server building_ids savings_target_param
      min_r_squared_param (Some key) (Some base) t = (Ok tt, t') /\
    requests_sent t' = (requests_sent t + length building_ids)%nat /\
    sleeps_taken t' = sleeps_taken t.
Proof.
  intros Hk Hb Hdown.
  induction building_ids as [|building_id rest IH]; intros t; cbn [analyze_buildings].
  - eexists. split; [reflexivity|].
    rewrite requests_sent_app, sleeps_taken_app. cbn. lia.
  - unfold bind at 1.
    set (u := (t ++ submission_lines building_id savings_target_param
                      min_r_squared_param)%list).
    destruct (make_request_dispatched server "POST"
                ("/buildings/" ++ str_of (PInt building_id) ++ "/analytics/")
                (PDict [("savings_target", PStr savings_target_param);
                        ("min_model_r_squared", min_r_squared_param);
                        ("benchmark_data_type", PStr "DEFAULT")])
                PNone key base u Hk Hb) as (r & _ & _ & _ & E).
    { cbn. auto. }
    destruct (Hdown (requests_sent u) r) as (msg & Hmsg).
    rewrite Hmsg in E. cbn [outcome except_clauses is_HTTPError is_RequestException
                              exn_class_of exn_str] in E.
    rewrite (analyze_building_rejected building_id savings_target_param
               min_r_squared_param (Some key) (Some base) t _ _ E).
    + destruct (IH ((u ++ [EvRequest r]) ++
                    [trigger_failed_line building_id
                       (PDict [("error", PStr "RequestException");
                               ("message", PStr msg)])])%list)
        as (t' & E' & Hreq & Hsl).
      exists t'. split; [exact E'|].
      rewrite Hreq, Hsl. subst u.
      rewrite !requests_sent_app, !sleeps_taken_app. cbn. lia.
    + right. eexists. split; reflexivity.
Qed.

(** X17. When the transport fails on every request, the loop of [main] sends
    exactly one request for each building, the submission, never sleeps, and
    ends normally. *)
Theorem unreachable_service_costs_one_request_each building_ids savings_target_param
    min_r_squared_param key base t :
  key <> "" -> base <> "" ->
  (forall n r, exists msg, server n r = ConnectionFailed msg) ->
  let run := analyze_buildings str_of server building_ids savings_target_param
               min_r_squared_param (Some key) (Some base) t in
  fst run = Ok tt /\
  requests_sent (snd run) = (requests_sent t + length building_ids)%nat /\
  sleeps_taken (snd run) = sleeps_taken t.
Proof.
  intros Hk Hb Hdown run. subst run.
  destruct (analyze_buildings_unreachable building_ids savings_target_param
              min_r_squared_param key base Hk Hb Hdown t) as (t' & E & Hreq & Hsl).
  now rewrite E.
Qed.

End Buildings.

(** X18. The summary of a value without a [generation_result]: for a falsy
    value (what a timed-out poll leaves when the last query gave no body) the
    header and the line that the data is unavailable; for an object, as the
    failure records are, these two lines and, when it has an ["error"] key,
    its ["message"], or "Unknown error" when it has none.  Nothing is
    raised. *)
Theorem display_without_status (building_id d : pyval) (t : Trace) :
  (Py.truthy d = false ->
   display_analysis_summary building_id d t
   = (Ok tt, (t ++ [summary_header building_id; summary_unavailable])%list)) /\
  (forall fields,
     d = PDict fields -> fields <> [] ->
     Py.lookup "generation_result" fields = None ->
     display_analysis_summary building_id d t
     = (Ok tt,
        (t ++ summary_header building_id :: summary_unavailable
           :: match Py.lookup "error" fields with
              | Some _ => [summary_error (field_or "message" (PStr "Unknown error") d)]
              | None => []
              end)%list)).
Proof.
  split.
  - intros Hfalsy. unfold display_analysis_summary.
    rewrite run_print, Hfalsy. cbn [negb]. rewrite run_ret. cbv iota.
    rewrite run_print, run_ret. cbv iota. unfold ret.
    now rewrite <- !app_assoc.
  - intros fields -> Hne Hgr.
    assert (Htr : Py.truthy (PDict fields) = true)
      by (destruct fields; [contradiction | reflexivity]).
    unfold display_analysis_summary.
    rewrite run_print, Htr. cbn [negb Py.contains]. rewrite Hgr.
    unfold bind at 1. rewrite run_lift. unfold ret at 1. cbn [negb]. cbv iota.
    rewrite run_print, run_lift.
    unfold field_or, get_or. cbn [Py.get].
    destruct (Py.lookup "error" fields).
    + rewrite run_lift. unfold print, emit. now rewrite <- !app_assoc.
    + unfold ret. now rewrite <- !app_assoc.
Qed.

(** ** The endpoint wrappers *)

Section Wrappers.

Variable str_of : pyval -> string.
Variable server : nat -> Request -> NetReply.
Variables key base : string.
Hypothesis key_present : key <> "".
Hypothesis base_present : base <> "".

Lemma with_credentials {A} (x y : A) :
  (if absent (Some key) || absent (Some base) then x else y) = y.
Proof. now rewrite (absent_present _ key_present), (absent_present _ base_present). Qed.


(** X20. What each wrapper sends, given credentials: one request, with its
    verb, its endpoint under the base URL, and its payload as JSON body for POST
    and PATCH and none for GET and DELETE.  The bills of a building are listed
    and added at one URL, and a single bill is read, edited and deleted at one
    URL. *)
Theorem wrappers_send (t : Trace) :
  let sent c := snd (c t) in
  let request method endpoint body :=
    (t ++ [EvRequest (mkRequest method (request_url base endpoint)
                        (request_headers key) body PNone)])%list in
  (forall name,
     sent (create_portfolio server name (Some key) (Some base))
     = request POST "/portfolios/" (Some (PDict [("name", name)]))) /\
  (forall payload,
     sent (create_building server payload (Some key) (Some base))
     = request POST "/buildings/" (Some payload)) /\
  (forall b,
     sent (list_utility_bills str_of server b (Some key) (Some base))
     = request GET ("/buildings/" ++ str_of b ++ "/utility_bills/") None) /\
  (forall b payload,
     sent (add_new_bills_to_building str_of server b payload (Some key) (Some base))
     = request POST ("/buildings/" ++ str_of b ++ "/utility_bills/") (Some payload)) /\
  (forall b bill,
     sent (get_utility_bill_details str_of server b bill (Some key) (Some base))
     = request GET ("/buildings/" ++ str_of b ++ "/utility_bills/" ++ str_of bill ++ "/")
         None) /\
  (forall b bill payload,
     sent (edit_utility_bill str_of server b bill payload (Some key) (Some base))
     = request PATCH ("/buildings/" ++ str_of b ++ "/utility_bills/" ++ str_of bill ++ "/")
         (Some payload)) /\
  (forall b bill,
     sent (delete_utility_bill str_of server b bill (Some key) (Some base))
     = request DELETE ("/buildings/" ++ str_of b ++ "/utility_bills/" ++ str_of bill ++ "/")
         None) /\
  (forall b target r2,
     sent (run_building_analysis str_of server b target r2 (Some key) (Some base))
     = request POST ("/buildings/" ++ str_of b ++ "/analytics/")
         (Some (PDict [("savings_target", target);
                       ("min_model_r_squared", r2);
                       ("benchmark_data_type", PStr "DEFAULT")]))).
Proof.
  cbv zeta.
  repeat split; intros;
    unfold create_portfolio, create_building, list_utility_bills,
      add_new_bills_to_building, get_utility_bill_details, edit_utility_bill,
      delete_utility_bill, run_building_analysis, _make_request;
    rewrite with_credentials; reflexivity.
Qed.

End Wrappers.

(** ** Examples of the further properties *)

Ltac present := discriminate.

Lemma make_request_never_raises_witness :
  exists v,
    fst (_make_request (always (Responded html_response)) "GET" "/portfolios/" PNone PNone
           (Some example_key) (Some example_base) []) = Ok v.
Proof.
  refine (make_request_never_raises (always (Responded html_response))
            "GET" "/portfolios/" PNone PNone (Some example_key) (Some example_base) [] _ _).
  - intros n r e H. discriminate H.
  - intros n r response H. injection H as <-.
    intros e He. injection He as <-. reflexivity.
Defined.

Lemma http_error_is_reported_witness :
  fst (_make_request (always (Responded not_found_response)) "GET" "/buildings/9/"
         PNone PNone (Some example_key) (Some example_base) [])
  = Ok (PDict [("error", PStr "HTTPError");
               ("status_code", PInt 404);
               ("message", PStr (http_error_str not_found_response));
               ("details", PDict [("detail", PStr "Not found.")])]).
Proof.
  refine (proj1 (http_error_is_reported (always (Responded not_found_response))
                   "GET" "/buildings/9/" PNone PNone example_key example_base []
                   not_found_response _ _ _ _ _ _)).
  - present.
  - present.
  - left. reflexivity.
  - reflexivity.
  - cbn. lia.
  - intros e He. discriminate He.
Defined.

Lemma success_body_is_returned_witness :
  fst (_make_request (always complete_reply) "GET" "/buildings/101/analytics/7/"
         PNone PNone (Some example_key) (Some example_base) [])
  = Ok complete_snapshot.
Proof.
  refine (proj2 (success_body_is_returned (always complete_reply)
                   "GET" "/buildings/101/analytics/7/" PNone PNone
                   example_key example_base []
                   (json_response "{'id': 7, 'generation_result': 'COMPLETE', ...}"
                      complete_snapshot) _ _ _ _ _)
            complete_snapshot _ _).
  - present.
  - present.
  - left. reflexivity.
  - reflexivity.
  - unfold passes. cbn. lia.
  - discriminate.
  - reflexivity.
Defined.

Lemma method_case_is_ignored_witness :
  _make_request (always connection_refused) "get" "/portfolios/" PNone PNone
    (Some example_key) (Some example_base) []
  = _make_request (always connection_refused) "GET" "/portfolios/" PNone PNone
      (Some example_key) (Some example_base) [].
Proof.
  refine (method_case_is_ignored (always connection_refused) "get" "/portfolios/"
            PNone PNone (Some example_key) (Some example_base) [] _).
  left. reflexivity.
Defined.

Lemma get_and_delete_drop_the_body_witness :
  _make_request (always connection_refused) "delete" "/buildings/9/utility_bills/3/"
    (PDict [("cost", PInt 40)]) PNone (Some example_key) (Some example_base) []
  = _make_request (always connection_refused) "delete" "/buildings/9/utility_bills/3/"
      PNone PNone (Some example_key) (Some example_base) [].
Proof.
  refine (get_and_delete_drop_the_body (always connection_refused) "delete"
            "/buildings/9/utility_bills/3/" (PDict [("cost", PInt 40)]) PNone
            (Some example_key) (Some example_base) [] _).
  right. reflexivity.
Defined.

Lemma poll_returns_first_failed_witness :
  fst (poll_for_building_analysis_completion plain_str
         (scripted [in_progress_reply] failed_reply)
         (PInt 101) (PInt 7) (Some example_key) (Some example_base) 10 30 [])
  = Ok failed_snapshot.
Proof.
  refine (proj1 (poll_returns_first_failed plain_str
                   (scripted [in_progress_reply] failed_reply)
                   (PInt 101) (PInt 7) example_key example_base 10 30 _ _ _
                   2%nat (fun _ => in_progress_snapshot) failed_snapshot [] _ _ _ _ _)).
  - present.
  - present.
  - accepted.
  - lia.
  - lia.
  - intros i Hi. split; [|check_snapshot].
    destruct i as [|i]; [reflexivity | simpl in Hi; lia].
  - reflexivity.
  - check_snapshot.
Defined.

(** A refused connection, a response without body, a snapshot in progress,
    and then the result. *)
Lemma poll_retries_until_complete_witness :
  fst (poll_for_building_analysis_completion plain_str
         (scripted [connection_refused; no_content_reply; in_progress_reply] complete_reply)
         (PInt 101) (PInt 7) (Some example_key) (Some example_base) 10 30 [])
  = Ok complete_snapshot.
Proof.
  refine (proj1 (poll_retries_until_complete plain_str
                   (scripted [connection_refused; no_content_reply; in_progress_reply]
                      complete_reply)
                   (PInt 101) (PInt 7) example_key example_base 10 30 _ _ _
                   4%nat
                   (fun i => nth i [refused_record; PNone] in_progress_snapshot)
                   complete_snapshot [] _ _ _ _ _)).
  - present.
  - present.
  - accepted.
  - lia.
  - lia.
  - intros i Hi. destruct i as [|[|[|i]]]; [| | |simpl in Hi; lia];
      (split; [reflexivity|]).
    + right. left. eexists. split; [reflexivity | discriminate].
    + right. right. reflexivity.
    + left. check_snapshot.
  - reflexivity.
  - check_snapshot.
Defined.

(** Three attempts, each answered without a body: the poller returns [None];
    three attempts without an API key: it returns the record of the missing
    credentials. *)
Lemma poll_times_out_with_last_result_witness :
  fst (poll_for_building_analysis_completion plain_str (always no_content_reply)
         (PInt 101) (PInt 7) (Some example_key) (Some example_base) 10 3 [])
  = Ok PNone /\
  fst (poll_for_building_analysis_completion plain_str (always no_content_reply)
         (PInt 101) (PInt 7) None (Some example_base) 10 3 [])
  = Ok (PDict [("error", PStr "API_KEY and BASE_URL must be provided.")]).
Proof.
  split.
  - refine (proj1 (proj1 (poll_times_out_with_last_result plain_str
                            (always no_content_reply) (PInt 101) (PInt 7)
                            (Some example_key) (Some example_base) 10 3
                            (fun _ => PNone) [])
                     example_key example_base eq_refl eq_refl _ _ _ _ _)).
    + present.
    + present.
    + accepted.
    + lia.
    + intros i _. split; [reflexivity|]. right. right. reflexivity.
  - refine (proj1 (proj2 (poll_times_out_with_last_result plain_str
                            (always no_content_reply) (PInt 101) (PInt 7)
                            None (Some example_base) 10 3
                            (fun _ => PNone) [])
                     _ _ _)).
    + left. left. reflexivity.
    + accepted.
    + lia.
Defined.

(** A snapshot in progress, then a list. *)
Lemma poll_raises_on_non_object_witness :
  exists e,
    fst (poll_for_building_analysis_completion plain_str
           (scripted [in_progress_reply] list_reply)
           (PInt 101) (PInt 7) (Some example_key) (Some example_base) 10 30 [])
    = Raise e /\
    (exn_class_of e = AttributeError \/ exn_class_of e = TypeError).
Proof.
  destruct (poll_raises_on_non_object plain_str (scripted [in_progress_reply] list_reply)
              (PInt 101) (PInt 7) example_key example_base 10 30
              ltac:(present) ltac:(present) ltac:(accepted)
              2%nat (fun _ => in_progress_snapshot) (PList [PInt 1]) [])
    as (e & E & He & _).
  - lia.
  - lia.
  - intros i Hi. destruct i as [|i]; [|simpl in Hi; lia].
    split; [reflexivity|]. left. check_snapshot.
  - reflexivity.
  - split; [reflexivity | discriminate].
  - exists e. split; [exact E | exact He].
Defined.

(** One second less than nothing, and ten thousand million seconds. *)
Lemma poll_raises_on_bad_interval_witness :
  (exists e line,
     poll_for_building_analysis_completion plain_str (always in_progress_reply)
       (PInt 101) (PInt 7) (Some example_key) (Some example_base) (-1) 30 []
     = (Raise e,
        [polling_line (PInt 101) (PInt 7);
         EvRequest (status_query plain_str (PInt 101) (PInt 7) example_key example_base);
         EvPrint line]) /\
     exn_class_of e = ValueError) /\
  (exists e line,
     poll_for_building_analysis_completion plain_str (always in_progress_reply)
       (PInt 101) (PInt 7) (Some example_key) (Some example_base) 10000000000 30 []
     = (Raise e,
        [polling_line (PInt 101) (PInt 7);
         EvRequest (status_query plain_str (PInt 101) (PInt 7) example_key example_base);
         EvPrint line]) /\
     exn_class_of e = OverflowError).
Proof.
  split.
  - refine (poll_raises_on_bad_interval plain_str (always in_progress_reply)
              (PInt 101) (PInt 7) example_key example_base (-1) 30 _ _
              in_progress_snapshot [] _ _ _ _).
    + present.
    + present.
    + unfold sleepable. lia.
    + lia.
    + reflexivity.
    + left. check_snapshot.
  - refine (poll_raises_on_bad_interval plain_str (always in_progress_reply)
              (PInt 101) (PInt 7) example_key example_base 10000000000 30 _ _
              in_progress_snapshot [] _ _ _ _).
    + present.
    + present.
    + unfold sleepable. lia.
    + lia.
    + reflexivity.
    + left. check_snapshot.
Defined.

(** Two buildings on a service that is in progress for ever: 62 requests at
    most. *)
Lemma analyze_buildings_cost_witness :
  Nat.le
    (requests_sent (snd (analyze_buildings plain_str (always in_progress_reply) [101; 102]
                           "NOMINAL" (PFloat 6 (-1)) (Some example_key) (Some example_base)
                           [])))
    62.
Proof.
  destruct (analyze_buildings plain_str (always in_progress_reply) [101; 102]
              "NOMINAL" (PFloat 6 (-1)) (Some example_key) (Some example_base) [])
    as [r t'] eqn:E.
  exact (proj1 (analyze_buildings_cost plain_str (always in_progress_reply) [101; 102]
                  "NOMINAL" (PFloat 6 (-1)) (Some example_key) (Some example_base)
                  [] r t' E)).
Defined.

Lemma submission_without_id_is_not_polled_witness :
  exists submitted,
    analyze_building plain_str (always connection_refused) 101 "NOMINAL" (PFloat 6 (-1))
      (Some example_key) (Some example_base) []
    = (Ok tt, (submitted ++ [trigger_failed_line 101 refused_record])%list).
Proof.
  eexists.
  refine (proj1 (submission_without_id_is_not_polled plain_str (always connection_refused)
                   101 "NOMINAL" (PFloat 6 (-1)) (Some example_key) (Some example_base)
                   [] _ refused_record _ _)).
  - lazy. reflexivity.
  - right. eexists. split; reflexivity.
Defined.

Lemma no_credentials_no_traffic_witness :
  filter is_request
    (snd (analyze_buildings plain_str (always in_progress_reply) [101; 102]
            "NOMINAL" (PFloat 6 (-1)) None (Some example_base) []))
  = [].
Proof.
  refine (proj1 (proj2 (no_credentials_no_traffic plain_str (always in_progress_reply)
                          [101; 102] "NOMINAL" (PFloat 6 (-1)) None (Some example_base)
                          [] _))).
  left. left. reflexivity.
Defined.

Lemma unreachable_service_costs_one_request_each_witness :
  requests_sent
    (snd (analyze_buildings plain_str (always connection_refused) [101; 102; 103]
            "NOMINAL" (PFloat 6 (-1)) (Some example_key) (Some example_base) []))
  = 3%nat.
Proof.
  refine (proj1 (proj2 (unreachable_service_costs_one_request_each plain_str
                          (always connection_refused) [101; 102; 103] "NOMINAL"
                          (PFloat 6 (-1)) example_key example_base [] _ _ _))).
  - present.
  - present.
  - intros n r. eexists. reflexivity.
Defined.

Lemma display_without_status_witness :
  display_analysis_summary (PInt 202) PNone []
  = (Ok tt, [summary_header (PInt 202); summary_unavailable]) /\
  display_analysis_summary (PInt 202) refused_record []
  = (Ok tt, [summary_header (PInt 202); summary_unavailable;
             summary_error (PStr "Connection refused")]).
Proof.
  split.
  - refine (proj1 (display_without_status (PInt 202) PNone []) _). reflexivity.
  - refine (proj2 (display_without_status (PInt 202) refused_record [])
              [("error", PStr "RequestException"); ("message", PStr "Connection refused")]
              _ _ _);
      [reflexivity | discriminate | reflexivity].
Defined.


Lemma wrappers_send_witness :
  snd (delete_utility_bill plain_str (always connection_refused) (PInt 9) (PInt 3)
         (Some example_key) (Some example_base) [])
  = [EvRequest (mkRequest DELETE
                  (request_url example_base "/buildings/9/utility_bills/3/")
                  (request_headers example_key) None PNone)].
Proof.
  refine (proj1 (proj2 (proj2 (proj2 (proj2 (proj2 (proj2
            (wrappers_send plain_str (always connection_refused)
               example_key example_base _ _ []))))))) (PInt 9) (PInt 3)).
  - present.
  - present.
Defined.
